(** * PFO3-redes: a task-distribution broker, its worker and their wire format

    A shallow embedding of [src/load_balancer.py] and [src/worker.py].

    Conventions of the model.
    - A Python [str] is a [string] whose characters are code points below
      256; the whitespace, digit and printable tests are the interpreter's,
      restricted to that range.  [int] and [str] convert integers of any
      size.
    - A socket is a number.  [down] is the set of sockets on which [send]
      raises [OSError] (closed locally, or the peer is gone); [wire] records
      every message that was sent, in order.
    - A handler runs on the list of what its calls of [recv] return, in
      order.  When the list is used up the handler waits in [recv]: its loop
      is [Blocked] and its session [Open], and it is taken up again on the
      input that follows.  The handlers of different connections take turns
      at this grain; the locks around the pool and the ledger do nothing
      more.
    - [queue.Queue.get(timeout=5)] is one step: on an empty queue it raises
      [Empty] once the timeout has elapsed, and [waited] counts the seconds
      spent so.
    - [threading.Timer(1.0, f, args).start()] records a pending call in
      [timers]; firing a timer runs the call.
    - [print] appends a line to [stdout]. *)

From Stdlib Require Import ZArith Ascii String List Lia DecimalString.
From stdpp Require Import base option list gmap strings.
From Stdlib Require DecimalZ.

(** ** The interpreter's string operations *)

Module Py.

Local Open Scope Z_scope.

Definition nl : string := String (ascii_of_nat 10) "".

Definition ord (c : ascii) : Z := Z.of_N (N_of_ascii c).

Definition between (lo hi x : Z) : bool := (lo <=? x) && (x <=? hi).

(** [str.isspace] on one character. *)
Definition isspace (c : ascii) : bool :=
  between 9 13 (ord c) || between 28 32 (ord c)
  || (ord c =? 133) || (ord c =? 160).

(** The whitespace [int] skips around a literal: the C locale's blanks, and
    the non-ASCII whitespace, which [int] first rewrites to a blank. *)
Definition int_isspace (c : ascii) : bool :=
  between 9 13 (ord c) || (ord c =? 32) || (ord c =? 133) || (ord c =? 160).

Fixpoint lstrip (s : string) : string :=
  match s with
  | "" => ""
  | String c s' => if isspace c then lstrip s' else s
  end.

Fixpoint rstrip (s : string) : string :=
  match s with
  | "" => ""
  | String c s' =>
      match rstrip s' with
      | "" => if isspace c then "" else String c ""
      | r => String c r
      end
  end.

(** [s.strip()] *)
Definition strip (s : string) : string := rstrip (lstrip s).

(** [s.split(sep, maxsplit)] for a one-character separator and
    [maxsplit >= 0]: the string is cut at the first [maxsplit] separators. *)
Fixpoint split_max (sep : ascii) (maxsplit : nat) (s : string) {struct s}
  : list string :=
  match maxsplit with
  | O => [s]
  | S m =>
      match s with
      | "" => [""]
      | String c s' =>
          if decide (c = sep) then "" :: split_max sep m s'
          else match split_max sep maxsplit s' with
               | h :: t => String c h :: t
               | [] => [String c ""]
               end
      end
  end.

(** [s.split(sep)]: the string is cut at every separator. *)
Fixpoint split (sep : ascii) (s : string) : list string :=
  match s with
  | "" => [""]
  | String c s' =>
      if decide (c = sep) then "" :: split sep s'
      else match split sep s' with
           | h :: t => String c h :: t
           | [] => [String c ""]
           end
  end.

(** *** [repr] of a string *)

Fixpoint contains (c : ascii) (s : string) : bool :=
  match s with
  | "" => false
  | String d s' => if decide (d = c) then true else contains c s'
  end.

Definition hex_digit (n : Z) : ascii :=
  if n <? 10 then ascii_of_N (Z.to_N (48 + n)) else ascii_of_N (Z.to_N (87 + n)).

Definition isprintable (c : ascii) : bool :=
  between 32 126 (ord c) || (between 161 255 (ord c) && negb (ord c =? 173)).

Definition backslash : ascii := ascii_of_nat 92.

Definition repr_char (quote c : ascii) : string :=
  if decide (c = quote) then String backslash (String c "")
  else if decide (c = backslash) then String backslash (String c "")
  else if ord c =? 9 then String backslash "t"
  else if ord c =? 10 then String backslash "n"
  else if ord c =? 13 then String backslash "r"
  else if isprintable c then String c ""
  else String backslash
         (String "x" (String (hex_digit (ord c / 16))
                        (String (hex_digit (ord c mod 16)) ""))).

Fixpoint repr_body (quote : ascii) (s : string) : string :=
  match s with
  | "" => ""
  | String c s' => repr_char quote c +:+ repr_body quote s'
  end.

Definition single_quote : ascii := ascii_of_nat 39.
Definition double_quote : ascii := ascii_of_nat 34.

(** [repr(s)] *)
Definition repr (s : string) : string :=
  let quote :=
    if contains single_quote s && negb (contains double_quote s)
    then double_quote else single_quote in
  String quote (repr_body quote s +:+ String quote "").

(** *** [int] and [str] *)

Inductive ValueError := invalid_literal (msg : string).

(** [str(e)] for a [ValueError] *)
Definition str_exn (e : ValueError) : string :=
  match e with invalid_literal msg => msg end.

Definition digit_value (c : ascii) : option Z :=
  if between 48 57 (ord c) then Some (ord c - 48) else None.

Fixpoint skip_space (s : string) : string :=
  match s with
  | "" => ""
  | String c s' => if int_isspace c then skip_space s' else s
  end.

(** What the digit scanner saw last. *)
Inductive prev := AtStart | AfterDigit | AfterUnderscore.

(** The digit scanner of [int]: digits with single underscores between
    them.  It returns the value read and the rest of the input, or [None]
    for a leading, doubled or trailing underscore and for no digit at all. *)
Fixpoint scan (p : prev) (acc : Z) (s : string) : option (Z * string) :=
  let stop := match p with AfterDigit => Some (acc, s) | _ => None end in
  match s with
  | "" => stop
  | String c s' =>
      match digit_value c with
      | Some d => scan AfterDigit (10 * acc + d) s'
      | None =>
          if decide (c = "_"%char) then
            match p with
            | AfterDigit => scan AfterUnderscore acc s'
            | _ => None
            end
          else stop
      end
  end.

(** [int(s)] in base 10 *)
Definition int (s : string) : Z + ValueError :=
  let err := inr (invalid_literal
                    ("invalid literal for int() with base 10: " +:+ repr s)) in
  let s1 := skip_space s in
  let '(sign, s2) :=
    match s1 with
    | String c r =>
        if decide (c = "+"%char) then (1, r)
        else if decide (c = "-"%char) then (-1, r)
        else (1, s1)
    | "" => (1, s1)
    end in
  match scan AtStart 0 s2 with
  | Some (v, rest) =>
      match skip_space rest with
      | "" => inl (sign * v)
      | _ => err
      end
  | None => err
  end.

(** [str(z)] for an integer *)
Definition str (z : Z) : string := NilZero.string_of_int (Z.to_int z).

(** [sum(numbers)] *)
Definition sum (numbers : list Z) : Z := fold_left Z.add numbers 0.

End Py.

(** ** The wire format *)

Module Wire.

(** The three-field decoding that the client handler, the worker handler
    and the worker's loop each write out:
    [parts = data.strip().split('|', 2)], then
    [len(parts) != 3 or parts[0] != tag] rejects. *)
Definition decode3 (tag data : string) : option (string * string) :=
  match Py.split_max "|" 2 (Py.strip data) with
  | [t; a; b] => if decide (t = tag) then Some (a, b) else None
  | _ => None
  end.

(** [f"{tag}|{a}|{b}\n"] *)
Definition encode3 (tag a b : string) : string :=
  tag +:+ "|" +:+ a +:+ "|" +:+ b +:+ Py.nl.

(** [f"{tag}|{a}\n"] *)
Definition encode2 (tag a : string) : string :=
  tag +:+ "|" +:+ a +:+ Py.nl.

End Wire.

(** ** The worker ([src/worker.py]) *)

Module Worker.

(** [[int(x.strip()) for x in xs]]: the first element that is no number
    raises, and the later ones are not looked at. *)
Fixpoint numbers_of (xs : list string) : list Z + Py.ValueError :=
  match xs with
  | [] => inl []
  | x :: rest =>
      match Py.int (Py.strip x) with
      | inr e => inr e
      | inl n =>
          match numbers_of rest with
          | inr e => inr e
          | inl ns => inl (n :: ns)
          end
      end
  end.

Definition process_task (task_data : string) : string :=
  match numbers_of (Py.split "," task_data) with
  | inl numbers => Py.str (Py.sum numbers)
  | inr e => "ERROR: " +:+ Py.str_exn e
  end.

Inductive step := Break | Continue | Reply (message : string).

(** One turn of the loop of [start] on the text that [recv] returned. *)
Definition on_recv (data : string) : step :=
  if decide (data = "") then Break
  else match Wire.decode3 "ASSIGN_TASK" data with
       | None => Continue
       | Some (task_id, task_data) =>
           Reply (Wire.encode3 "TASK_RESULT" task_id (process_task task_data))
       end.

End Worker.

(** ** The broker ([src/load_balancer.py]) *)

Module LoadBalancer.

Definition socket := nat.

(** The lines the broker prints. *)
Inductive line :=
| InvalidMessage (data : string)
| TaskReceived (task_id : string)
| ClientDisconnected
| InvalidRegistration (data : string)
| WorkerRegistered (worker_id : string)
| ResultReceived (task_id : string)
| WorkerDisconnected (worker_id : option string)
| TaskAssigned (task_id worker_id : string)
| NoWorkers (task_id : string)
| ResultSent (task_id : string)
| ClientGone
| NoClient (task_id : string).

(** A started [threading.Timer(interval, self._assign_task_to_worker, args)]. *)
Record timer := Timer {
  interval : nat;
  timer_task_id : string;
  timer_task_data : string
}.

Record state := State {
  workers : list (socket * string);
  task_to_client : gmap string socket;
  running : bool;
  down : gset socket;
  wire : list (socket * string);
  timers : list timer;
  waited : nat;
  stdout : list line
}.

Definition init : state :=
  State [] ∅ true ∅ [] [] 0 [].

Inductive exn := OSError | Empty.

Inductive outcome (A : Type) :=
| Ok (a : A)
| Raise (e : exn).
Arguments Ok {A} a.
Arguments Raise {A} e.

Definition M (A : Type) : Type := state -> outcome A * state.

#[global] Instance M_ret : MRet M := fun A a st => (Ok a, st).

#[global] Instance M_bind : MBind M := fun A B f m st =>
  match m st with
  | (Ok a, st') => f a st'
  | (Raise e, st') => (Raise e, st')
  end.

Definition raise {A} (e : exn) : M A := fun st => (Raise e, st).

(** [try: body / except e: handler], for the exceptions [caught] accepts. *)
Definition try_except {A} (body : M A) (caught : exn -> bool) (handler : M A)
  : M A := fun st =>
  match body st with
  | (Raise e, st') => if caught e then handler st' else (Raise e, st')
  | r => r
  end.

Definition is_OSError (e : exn) : bool :=
  match e with OSError => true | _ => false end.

Definition is_Empty (e : exn) : bool :=
  match e with Empty => true | _ => false end.

Definition print (l : line) : M unit := fun st =>
  (Ok (), State (workers st) (task_to_client st) (running st) (down st)
            (wire st) (timers st) (waited st) (stdout st ++ [l])).

(** [sock.send(message.encode('utf-8'))] *)
Definition send (sock : socket) (message : string) : M unit := fun st =>
  if decide (sock ∈ down st) then (Raise OSError, st)
  else (Ok (), State (workers st) (task_to_client st) (running st) (down st)
                 (wire st ++ [(sock, message)]) (timers st) (waited st)
                 (stdout st)).

(** [sock.close()] *)
Definition close (sock : socket) : M unit := fun st =>
  (Ok (), State (workers st) (task_to_client st) (running st)
            ({[sock]} ∪ down st) (wire st) (timers st) (waited st)
            (stdout st)).

(** [self.workers.put(w)] *)
Definition workers_put (w : socket * string) : M unit := fun st =>
  (Ok (), State (workers st ++ [w]) (task_to_client st) (running st) (down st)
            (wire st) (timers st) (waited st) (stdout st)).

(** [self.workers.get(timeout=timeout)] *)
Definition workers_get (timeout : nat) : M (socket * string) := fun st =>
  match workers st with
  | w :: rest =>
      (Ok w, State rest (task_to_client st) (running st) (down st)
               (wire st) (timers st) (waited st) (stdout st))
  | [] =>
      (Raise Empty, State [] (task_to_client st) (running st) (down st)
                      (wire st) (timers st) (waited st + timeout) (stdout st))
  end.

(** [self.task_to_client[task_id] = client_socket] *)
Definition task_setitem (task_id : string) (client_socket : socket) : M unit :=
  fun st =>
  (Ok (), State (workers st) (<[task_id := client_socket]> (task_to_client st))
            (running st) (down st) (wire st) (timers st) (waited st)
            (stdout st)).

(** [self.task_to_client.pop(task_id, None)] *)
Definition task_pop (task_id : string) : M (option socket) := fun st =>
  (Ok (task_to_client st !! task_id),
   State (workers st) (delete task_id (task_to_client st))
     (running st) (down st) (wire st) (timers st) (waited st) (stdout st)).

(** [threading.Timer(interval, self._assign_task_to_worker, args=...).start()] *)
Definition start_timer (t : timer) : M unit := fun st =>
  (Ok (), State (workers st) (task_to_client st) (running st) (down st)
            (wire st) (timers st ++ [t]) (waited st) (stdout st)).

Definition get_running : M bool := fun st => (Ok (running st), st).

Definition _assign_task_to_worker (task_id task_data : string) : M unit :=
  try_except
    ('(worker_socket, worker_id) ← workers_get 5;
     send worker_socket (Wire.encode3 "ASSIGN_TASK" task_id task_data);;
     print (TaskAssigned task_id worker_id))
    is_Empty
    (print (NoWorkers task_id);;
     start_timer (Timer 1 task_id task_data)).

Definition _send_result_to_client (task_id result_data : string) : M unit :=
  client_socket ← task_pop task_id;
  match client_socket with
  | Some client_socket =>
      try_except
        (send client_socket (Wire.encode3 "RESULT" task_id result_data);;
         print (ResultSent task_id))
        is_OSError
        (print ClientGone)
  | None => print (NoClient task_id)
  end.

(** What [recv(1024).decode('utf-8')] gives: text (empty once the peer has
    closed), or a [ConnectionResetError]. *)
Inductive received := Data (data : string) | Reset.

(** How the loop of a handler stands once the input so far is used up. *)
Inductive loop := Blocked | Exited.

(** The [while self.running] loop of [_handle_client]. *)
Fixpoint client_loop (client_socket : socket) (inbox : list received)
  : M loop :=
  go_on ← get_running;
  if negb go_on then mret Exited else
  match inbox with
  | [] => mret Blocked
  | Reset :: _ => raise OSError
  | Data data :: inbox' =>
      if decide (data = "") then mret Exited
      else match Wire.decode3 "TASK" data with
           | None =>
               print (InvalidMessage data);;
               client_loop client_socket inbox'
           | Some (task_id, task_data) =>
               print (TaskReceived task_id);;
               task_setitem task_id client_socket;;
               _assign_task_to_worker task_id task_data;;
               client_loop client_socket inbox'
           end
  end.

Inductive session := Open | Closed.

(** [try: body / except OSError: print(gone) / finally: sock.close()], where
    a body that waits for input leaves the handler running. *)
Definition handler (sock : socket) (gone : line) (body : M loop) : M session :=
  fun st =>
  match try_except body is_OSError (print gone;; mret Exited) st with
  | (Ok Blocked, st') => (Ok Open, st')
  | (Ok Exited, st') => (close sock;; mret Closed) st'
  | (Raise e, st') => (close sock;; raise e) st'
  end.

Definition _handle_client (client_socket : socket) (inbox : list received)
  : M session :=
  handler client_socket ClientDisconnected (client_loop client_socket inbox).

(** The [while self.running] loop of [_handle_worker]. *)
Fixpoint worker_loop (worker_socket : socket) (worker_id : string)
    (inbox : list received) : M loop :=
  go_on ← get_running;
  if negb go_on then mret Exited else
  match inbox with
  | [] => mret Blocked
  | Reset :: _ => raise OSError
  | Data data :: inbox' =>
      if decide (data = "") then mret Exited
      else match Wire.decode3 "TASK_RESULT" data with
           | None => worker_loop worker_socket worker_id inbox'
           | Some (task_id, result_data) =>
               print (ResultReceived task_id);;
               _send_result_to_client task_id result_data;;
               workers_put (worker_socket, worker_id);;
               worker_loop worker_socket worker_id inbox'
           end
  end.

(** The body of [_handle_worker]: the registration, then the loop.  The
    [except] clause prints [worker_id], which is [None] until the
    registration has been read: the part that runs after the assignment
    carries the clause with the identifier, and the clause of [handler]
    serves the first [recv]. *)
Definition worker_body (worker_socket : socket) (inbox : list received)
  : M loop :=
  match inbox with
  | [] => mret Blocked
  | Reset :: _ => raise OSError
  | Data data :: inbox' =>
      if decide (data = "") then mret Exited
      else match Py.split "|" (Py.strip data) with
           | [tag; worker_id] =>
               if decide (tag = "REGISTER") then
                 try_except
                   (print (WorkerRegistered worker_id);;
                    send worker_socket (Wire.encode2 "ACK" worker_id);;
                    workers_put (worker_socket, worker_id);;
                    worker_loop worker_socket worker_id inbox')
                   is_OSError
                   (print (WorkerDisconnected (Some worker_id));; mret Exited)
               else print (InvalidRegistration data);; mret Exited
           | _ => print (InvalidRegistration data);; mret Exited
           end
  end.

Definition _handle_worker (worker_socket : socket) (inbox : list received)
  : M session :=
  handler worker_socket (WorkerDisconnected None)
    (worker_body worker_socket inbox).

(** The handler of an executor that has registered, taken up again when
    more input arrives. *)
Definition worker_resumed (worker_socket : socket) (worker_id : string)
    (inbox : list received) : M session :=
  handler worker_socket (WorkerDisconnected (Some worker_id))
    (worker_loop worker_socket worker_id inbox).

(** The thread of the oldest pending timer runs its call. *)
Definition fire_timer : M unit := fun st =>
  match timers st with
  | [] => (Ok (), st)
  | t :: rest =>
      _assign_task_to_worker (timer_task_id t) (timer_task_data t)
        (State (workers st) (task_to_client st) (running st) (down st)
           (wire st) rest (waited st) (stdout st))
  end.

(** Executors that connect and register, one after the other. *)
Fixpoint register_all (executors : list (socket * string)) (st : state)
  : state :=
  match executors with
  | [] => st
  | (w, worker_id) :: rest =>
      register_all rest
        (snd (_handle_worker w [Data (Wire.encode2 "REGISTER" worker_id)] st))
  end.

(** Tasks handed to [_assign_task_to_worker], one after the other. *)
Fixpoint dispatch_all (tasks : list (string * string)) (st : state) : state :=
  match tasks with
  | [] => st
  | (task_id, task_data) :: rest =>
      dispatch_all rest (snd (_assign_task_to_worker task_id task_data st))
  end.

(** Results that arrive for one task identifier, one after the other. *)
Fixpoint deliver_all (task_id : string) (results : list string) (st : state)
  : state :=
  match results with
  | [] => st
  | result_data :: rest =>
      deliver_all task_id rest
        (snd (_send_result_to_client task_id result_data st))
  end.

(** [stop] *)
Definition stop : M unit := fun st =>
  (Ok (), State (workers st) (task_to_client st) false (down st)
            (wire st) (timers st) (waited st) (stdout st)).

(** The oldest pending timer fires, [n] times over. *)
Fixpoint fire_timers (n : nat) (st : state) : state :=
  match n with
  | O => st
  | S n' => fire_timers n' (snd (fire_timer st))
  end.

(** *** States used as examples *)

(** A ledger that already holds the task [t1] for the producer on socket 3. *)
Definition ledger_with_t1 : state :=
  State [] {["t1" := 3]} true ∅ [] [] 0 [].

(** A pool of two executors, the first with its socket down. *)
Definition first_executor_down : state :=
  State [(7, "w1"); (8, "w2")] ∅ true {[7]} [] [] 0 [].

End LoadBalancer.

(** ** Integer literals, as a grammar

    The strings [int] is expected to accept, written as a grammar and not as
    a scanner: an optional sign, then one or more groups of decimal digits
    with a single underscore between neighbouring groups.  [padded] allows
    whitespace on both sides. *)

Module Literal.
Import Py.

Local Open Scope Z_scope.











End Literal.

(** ** The worker's connection ([Worker.connect], [Worker.start]) *)

Module WorkerProcess.
Import LoadBalancer.

(** [connect].  [reachable] is false when [socket.connect] or the [send]
    that follows it raises; [response] is what [recv] then gives.  The
    result is what was sent and the value returned. *)
Definition connect (reachable : bool) (worker_id : string)
    (response : received) : list string * bool :=
  if reachable then
    ([Wire.encode2 "REGISTER" worker_id],
     match response with
     | Reset => false
     | Data response =>
         match Py.split "|" (Py.strip response) with
         | [tag; _] => bool_decide (tag = "ACK")
         | _ => false
         end
     end)
  else ([], false).

(** How [start] stands once the input so far is used up. *)
Inductive status := NotConnected | Waiting | Disconnected.

(** The loop of [start].  [up] tells whether the socket takes what is sent;
    the result is what was sent, in order, and how the loop stands. *)
Fixpoint serve (up : bool) (inbox : list received) : list string * status :=
  match inbox with
  | [] => ([], Waiting)
  | Reset :: _ => ([], Disconnected)
  | Data data :: inbox' =>
      match Worker.on_recv data with
      | Worker.Break => ([], Disconnected)
      | Worker.Continue => serve up inbox'
      | Worker.Reply message =>
          if up then
            let '(sent, s) := serve up inbox' in (message :: sent, s)
          else ([], Disconnected)
      end
  end.

(** [start]: the first thing received answers the registration, the rest
    feeds the loop. *)
Definition start (reachable : bool) (worker_id : string)
    (inbox : list received) : list string * status :=
  match inbox with
  | [] =>
      if reachable then ([Wire.encode2 "REGISTER" worker_id], Waiting)
      else ([], NotConnected)
  | response :: inbox' =>
      let '(sent, ok) := connect reachable worker_id response in
      if ok then
        let '(replies, s) := serve reachable inbox' in (sent ++ replies, s)
      else (sent, NotConnected)
  end.

End WorkerProcess.

(** ** The client ([src/client.py]) *)

Module Client.
Import LoadBalancer.

(** [self.socket]: [None], or a socket object, which takes what is sent or
    raises [OSError]. *)
Definition socket_attr := option bool.

(** [connect].  The socket object is stored before the connection is
    tried, so it is there after a refusal as well. *)
Definition connect (reachable : bool) : socket_attr * bool :=
  (Some reachable, reachable).

(** [disconnect] *)
Definition disconnect (self_socket : socket_attr) : socket_attr := None.

(** [f"task_{uuid4().hex[:8]}"], for the eight characters drawn. *)
Definition new_task_id (hex8 : string) : string := "task_" +:+ hex8.

(** [send_task].  The result is what was sent and the value returned. *)
Definition send_task (self_socket : socket_attr) (hex8 task_data : string)
    (response : received) : list string * option string :=
  match self_socket with
  | None => ([], None)
  | Some false => ([], None)
  | Some true =>
      let task_id := new_task_id hex8 in
      ([Wire.encode3 "TASK" task_id task_data],
       match response with
       | Reset => None
       | Data response =>
           match Py.split_max "|" 2 (Py.strip response) with
           | [tag; result_task_id; result_data] =>
               if decide (tag = "RESULT") then
                 if decide (result_task_id = task_id) then Some result_data
                 else None
               else None
           | _ => None
           end
       end)
  end.

End Client.

(** ** The three programs together *)

Module System.
Import LoadBalancer.



End System.

(** ** Facts about the string operations *)

Module PyFacts.
Import Py.

Lemma sapp_cons (c : ascii) (s t : string) :
  String c s +:+ t = String c (s +:+ t).
Proof. reflexivity. Qed.

Lemma sapp_nil_l (t : string) : "" +:+ t = t.
Proof. reflexivity. Qed.


Lemma sapp_assoc (s t u : string) : (s +:+ t) +:+ u = s +:+ (t +:+ u).
Proof.
  induction s as [|c s IH]; [reflexivity|]. now rewrite !sapp_cons, IH.
Qed.

Lemma rstrip_cons (c : ascii) (s : string) :
  isspace c = false -> rstrip (String c s) = String c (rstrip s).
Proof. intros Hc. simpl. rewrite Hc. now destruct (rstrip s). Qed.

Lemma rstrip_app_keep (s t : string) :
  rstrip t <> "" -> rstrip (s +:+ t) = s +:+ rstrip t.
Proof.
  intros Ht. induction s as [|c s IH]; [reflexivity|].
  rewrite !sapp_cons. simpl. rewrite IH.
  destruct (s +:+ rstrip t) eqn:E; [|reflexivity].
  destruct s; [|discriminate]. now rewrite sapp_nil_l in E.
Qed.

Lemma rstrip_app_drop (s t : string) :
  rstrip t = "" -> rstrip (s +:+ t) = rstrip s.
Proof.
  intros Ht. induction s as [|c s IH]; [exact Ht|].
  rewrite sapp_cons. simpl. now rewrite IH.
Qed.

Lemma rstrip_nl : rstrip nl = "".
Proof. reflexivity. Qed.

Lemma lstrip_fixed_app (s : string) (c : ascii) (t : string) :
  lstrip s = s -> isspace c = false ->
  lstrip (s +:+ String c t) = s +:+ String c t.
Proof.
  intros Hs Hc. destruct s as [|d s].
  - rewrite sapp_nil_l. simpl. now rewrite Hc.
  - rewrite sapp_cons. simpl in *. destruct (isspace d) eqn:Hd; [|reflexivity].
    exfalso. clear Hc.
    assert (Hlen : forall u, String.length (lstrip u) <= String.length u).
    { induction u as [|e u IH]; simpl; [lia|].
      destruct (isspace e); simpl; lia. }
    specialize (Hlen s). rewrite Hs in Hlen. simpl in Hlen. lia.
Qed.

Lemma split_max_field (sep : ascii) (m : nat) (a b : string) :
  contains sep a = false ->
  split_max sep (S m) (a +:+ String sep b) = a :: split_max sep m b.
Proof.
  intros Ha. induction a as [|c a IH].
  - rewrite sapp_nil_l. simpl. now rewrite decide_True.
  - rewrite sapp_cons. simpl in Ha. destruct (decide (c = sep)); [discriminate|].
    cbn [split_max]. rewrite decide_False by assumption.
    now rewrite (IH Ha).
Qed.

Lemma split_max_0 (sep : ascii) (s : string) : split_max sep 0 s = [s].
Proof. now destruct s. Qed.

Lemma split_field (sep : ascii) (a b : string) :
  contains sep a = false ->
  split sep (a +:+ String sep b) = a :: split sep b.
Proof.
  intros Ha. induction a as [|c a IH].
  - rewrite sapp_nil_l. simpl. now rewrite decide_True.
  - rewrite sapp_cons. simpl in Ha. destruct (decide (c = sep)); [discriminate|].
    cbn [split]. rewrite decide_False by assumption.
    now rewrite (IH Ha).
Qed.

Lemma split_last (sep : ascii) (a : string) :
  contains sep a = false -> split sep a = [a].
Proof.
  intros Ha. induction a as [|c a IH]; [reflexivity|].
  simpl in Ha. destruct (decide (c = sep)); [discriminate|].
  cbn [split]. rewrite decide_False by assumption. now rewrite (IH Ha).
Qed.

Lemma pipe_not_space : isspace "|" = false.
Proof. reflexivity. Qed.

(** The stripped form of a line [tag|rest\n]. *)
Lemma strip_line (tag rest : string) :
  lstrip tag = tag ->
  strip (tag +:+ "|" +:+ rest +:+ nl) = tag +:+ "|" +:+ rstrip rest.
Proof.
  intros Htag. unfold strip.
  change (tag +:+ "|" +:+ rest +:+ nl)
    with (tag +:+ String "|" (rest +:+ nl)).
  rewrite (lstrip_fixed_app _ _ _ Htag pipe_not_space).
  assert (H : rstrip (String "|" (rest +:+ nl)) = String "|" (rstrip rest)).
  { rewrite (rstrip_cons _ _ pipe_not_space).
    now rewrite (rstrip_app_drop rest nl rstrip_nl). }
  rewrite rstrip_app_keep; rewrite H; [reflexivity | discriminate].
Qed.

End PyFacts.

(** ** [int] accepts exactly the literals *)

Module IntFacts.
Import Py Literal PyFacts.

Local Open Scope Z_scope.



































End IntFacts.

(** ** Decoding of the three-field messages *)

Module WireFacts.
Import Py PyFacts Wire.

Lemma encode3_line (tag a b : string) :
  encode3 tag a b = tag +:+ "|" +:+ (a +:+ "|" +:+ b) +:+ nl.
Proof. unfold encode3. now rewrite !sapp_assoc. Qed.

Lemma strip_encode3 (tag a b : string) :
  lstrip tag = tag ->
  strip (encode3 tag a b) = tag +:+ "|" +:+ a +:+ "|" +:+ rstrip b.
Proof.
  intros Htag. rewrite encode3_line, (strip_line _ _ Htag).
  do 2 f_equal. change ("|" +:+ b) with (String "|" b).
  rewrite rstrip_app_keep; rewrite (rstrip_cons _ _ pipe_not_space);
    [reflexivity | discriminate].
Qed.

Lemma split_encode3 (tag a b : string) :
  lstrip tag = tag -> contains "|" tag = false -> contains "|" a = false ->
  split_max "|" 2 (strip (encode3 tag a b)) = [tag; a; rstrip b].
Proof.
  intros Htag Hpt Hpa. rewrite (strip_encode3 _ _ _ Htag).
  change (tag +:+ "|" +:+ a +:+ "|" +:+ rstrip b)
    with (tag +:+ String "|" (a +:+ String "|" (rstrip b))).
  rewrite (split_max_field _ _ _ _ Hpt), (split_max_field _ _ _ _ Hpa).
  now rewrite split_max_0.
Qed.

Lemma decode3_encode3 (tag a b : string) :
  lstrip tag = tag -> contains "|" tag = false -> contains "|" a = false ->
  decode3 tag (encode3 tag a b) = Some (a, rstrip b).
Proof.
  intros Htag Hpt Hpa. unfold decode3.
  rewrite (split_encode3 _ _ _ Htag Hpt Hpa). now rewrite decide_True.
Qed.

Lemma split_max_length (sep : ascii) (m : nat) (s : string) :
  (length (split_max sep m s) <= S m)%nat.
Proof.
  revert m. induction s as [|c s IH]; intros [|m]; simpl; try lia.
  case_decide.
  - simpl. specialize (IH m). lia.
  - specialize (IH (S m)). destruct (split_max sep (S m) s); simpl in *; lia.
Qed.

Lemma strip_encode2 (tag a : string) :
  lstrip tag = tag -> strip (encode2 tag a) = tag +:+ "|" +:+ rstrip a.
Proof. intros Htag. unfold encode2. now apply strip_line. Qed.

Lemma encode3_not_empty (tag a b : string) : tag <> "" -> encode3 tag a b <> "".
Proof. intros H. destruct tag; [contradiction|discriminate]. Qed.

End WireFacts.

(** ** The worker's computation *)

Module WorkerFacts.
Import Py PyFacts Literal IntFacts Wire WireFacts Worker.





Lemma on_recv_assign (task_id task_data : string) :
  contains "|" task_id = false ->
  on_recv (encode3 "ASSIGN_TASK" task_id task_data)
  = Reply (encode3 "TASK_RESULT" task_id (process_task (rstrip task_data))).
Proof.
  intros Hid. unfold on_recv.
  rewrite decide_False by (now apply encode3_not_empty).
  now rewrite decode3_encode3.
Qed.

End WorkerFacts.

(** ** The broker's operations, step by step *)

Module LoadBalancerFacts.
Import Py PyFacts Wire WireFacts LoadBalancer.

Ltac ops :=
  unfold _assign_task_to_worker, _send_result_to_client, handler, try_except,
    workers_get, workers_put, task_setitem, task_pop, start_timer,
    get_running, send, close, print, raise, mbind, mret, M_bind, M_ret in *.

Section Assign.

Variables (task_id task_data : string) (st : state).

(** An idle executor whose socket is up is taken and sent the task. *)
Lemma assign_ok (w : socket) (worker_id : string)
    (rest : list (socket * string)) :
  workers st = (w, worker_id) :: rest -> w ∉ down st ->
  _assign_task_to_worker task_id task_data st
  = (Ok (),
     State rest (task_to_client st) (running st) (down st)
       (wire st ++ [(w, encode3 "ASSIGN_TASK" task_id task_data)])
       (timers st) (waited st) (stdout st ++ [TaskAssigned task_id worker_id])).
Proof.
  intros Hw Hup. destruct st; simpl in *; subst. ops. simpl.
  now rewrite decide_False.
Qed.

(** When the socket of the executor taken is down, [send] raises and nothing
    in [_assign_task_to_worker] catches it. *)
Lemma assign_send_fails (w : socket) (worker_id : string)
    (rest : list (socket * string)) :
  workers st = (w, worker_id) :: rest -> w ∈ down st ->
  _assign_task_to_worker task_id task_data st
  = (Raise OSError,
     State rest (task_to_client st) (running st) (down st)
       (wire st) (timers st) (waited st) (stdout st)).
Proof.
  intros Hw Hdown. destruct st; simpl in *; subst. ops. simpl.
  now rewrite decide_True.
Qed.

(** With no idle executor the call waits its five seconds and starts a
    timer of one second for the same task. *)
Lemma assign_empty :
  workers st = [] ->
  _assign_task_to_worker task_id task_data st
  = (Ok (),
     State [] (task_to_client st) (running st) (down st) (wire st)
       (timers st ++ [Timer 1 task_id task_data]) (waited st + 5)
       (stdout st ++ [NoWorkers task_id])).
Proof. intros Hw. destruct st; simpl in *; subst. reflexivity. Qed.

Lemma assign_keeps_ledger :
  task_to_client (snd (_assign_task_to_worker task_id task_data st))
  = task_to_client st.
Proof.
  destruct (workers st) as [|[w worker_id] rest] eqn:Hw.
  - now rewrite (assign_empty Hw).
  - destruct (decide (w ∈ down st)) as [Hd|Hd].
    + now rewrite (assign_send_fails _ _ _ Hw Hd).
    + now rewrite (assign_ok _ _ _ Hw Hd).
Qed.

End Assign.

(** A result for an identifier the ledger holds goes to its producer, and
    the entry is gone. *)
Lemma send_result_found (task_id result_data : string) (st : state)
    (c : socket) :
  task_to_client st !! task_id = Some c -> c ∉ down st ->
  _send_result_to_client task_id result_data st
  = (Ok (),
     State (workers st) (delete task_id (task_to_client st)) (running st)
       (down st) (wire st ++ [(c, encode3 "RESULT" task_id result_data)])
       (timers st) (waited st) (stdout st ++ [ResultSent task_id])).
Proof.
  intros Hc Hup. destruct st; simpl in *. ops. simpl. rewrite Hc.
  now rewrite decide_False.
Qed.

(** A result for an identifier the ledger does not hold is dropped. *)
Lemma send_result_unknown (task_id result_data : string) (st : state) :
  task_to_client st !! task_id = None ->
  _send_result_to_client task_id result_data st
  = (Ok (),
     State (workers st) (task_to_client st) (running st) (down st) (wire st)
       (timers st) (waited st) (stdout st ++ [NoClient task_id])).
Proof.
  intros Hc. destruct st; simpl in *. ops. simpl. rewrite Hc.
  now rewrite (delete_id _ _ Hc).
Qed.

(** Whatever the ledger holds, the result is handled without an exception
    and the entry is gone afterwards. *)
Lemma send_result_takes (task_id result_data : string) (st : state) :
  fst (_send_result_to_client task_id result_data st) = Ok ()
  /\ task_to_client (snd (_send_result_to_client task_id result_data st))
     !! task_id = None.
Proof.
  destruct st; simpl in *. ops. simpl.
  destruct (_ !! task_id) as [c|] eqn:Hc; simpl.
  - case_decide; simpl; (split; [reflexivity | apply lookup_delete_eq]).
  - split; [reflexivity | apply lookup_delete_eq].
Qed.

Lemma contains_rstrip (c : ascii) (s : string) :
  contains c s = false -> contains c (rstrip s) = false.
Proof.
  induction s as [|d s IH]; [reflexivity|]. simpl.
  case_decide as Hd; [discriminate|]. intros H. specialize (IH H).
  destruct (rstrip s) as [|e r].
  - destruct (isspace d); [reflexivity|]. simpl. now rewrite decide_False.
  - cbn [contains]. now rewrite decide_False.
Qed.

Lemma split_register (worker_id : string) :
  contains "|" worker_id = false ->
  split "|" (strip (encode2 "REGISTER" worker_id))
  = ["REGISTER"; rstrip worker_id].
Proof.
  intros Hid. rewrite strip_encode2 by reflexivity.
  change ("REGISTER" +:+ "|" +:+ rstrip worker_id)
    with ("REGISTER" +:+ String "|" (rstrip worker_id)).
  rewrite split_field by reflexivity.
  now rewrite (split_last _ _ (contains_rstrip _ _ Hid)).
Qed.

(** A well-formed registration: the acknowledgement is sent and the executor
    joins the pool at its tail.  The handler then waits for results, unless
    the broker has been stopped, in which case it closes the socket. *)
Lemma register_ok (w : socket) (worker_id : string) (st : state) :
  w ∉ down st -> contains "|" worker_id = false ->
  _handle_worker w [Data (encode2 "REGISTER" worker_id)] st
  = (Ok (if running st then Open else Closed),
     State (workers st ++ [(w, rstrip worker_id)]) (task_to_client st)
       (running st) (if running st then down st else {[w]} ∪ down st)
       (wire st ++ [(w, encode2 "ACK" (rstrip worker_id))])
       (timers st) (waited st)
       (stdout st ++ [WorkerRegistered (rstrip worker_id)])).
Proof.
  intros Hup Hid. unfold _handle_worker, worker_body.
  rewrite decide_False by discriminate.
  rewrite (split_register _ Hid). rewrite decide_True by reflexivity.
  destruct st as [ws led run dn wr tm wt out]; simpl in *.
  ops. simpl. rewrite decide_False by assumption. simpl.
  now destruct run.
Qed.

(** Any other first message: the handler returns, its socket is closed and
    the pool is as before. *)
Lemma register_rejected (w : socket) (data : string) (inbox : list received)
    (st : state) :
  (forall worker_id, split "|" (strip data) <> ["REGISTER"; worker_id]) ->
  _handle_worker w (Data data :: inbox) st
  = (Ok Closed,
     State (workers st) (task_to_client st) (running st) ({[w]} ∪ down st)
       (wire st) (timers st) (waited st)
       (stdout st
        ++ if decide (data = "") then [] else [InvalidRegistration data])).
Proof.
  intros Hbad. unfold _handle_worker, worker_body.
  destruct st as [ws led run dn wr tm wt out]; simpl in *.
  case_decide as Hd.
  - ops. simpl. now rewrite app_nil_r.
  - destruct (split "|" (strip data)) as [|tag [|worker_id [|x l]]] eqn:E;
      try (ops; reflexivity).
    case_decide as Ht; [|ops; reflexivity].
    subst tag. now destruct (Hbad worker_id).
Qed.

(** A result message for an identifier the ledger does not hold: the
    handler prints its line, puts the executor back and reads on. *)
Lemma worker_loop_unknown (w : socket) (worker_id task_id result_data : string)
    (st : state) :
  running st = true -> contains "|" task_id = false ->
  task_to_client st !! task_id = None ->
  worker_loop w worker_id [Data (encode3 "TASK_RESULT" task_id result_data)] st
  = (Ok Blocked,
     State (workers st ++ [(w, worker_id)]) (task_to_client st) (running st)
       (down st) (wire st) (timers st) (waited st)
       (stdout st ++ [ResultReceived task_id; NoClient task_id])).
Proof.
  intros Hrun Hid Hnone. cbn [worker_loop].
  rewrite decide_False by discriminate.
  rewrite decode3_encode3 by (assumption || reflexivity).
  destruct st as [ws led run dn wr tm wt out]; simpl in *; subst run.
  ops. simpl. rewrite Hnone, (delete_id _ _ Hnone). simpl.
  now rewrite <- app_assoc.
Qed.

(** A task message: the ledger maps the identifier to the sender, whatever
    it held before and whatever becomes of the assignment. *)
Lemma client_loop_ledger (c : socket) (task_id task_data : string)
    (st : state) :
  running st = true -> contains "|" task_id = false ->
  task_to_client
    (snd (client_loop c [Data (encode3 "TASK" task_id task_data)] st))
  = <[task_id := c]> (task_to_client st).
Proof.
  intros Hrun Hid. cbn [client_loop].
  rewrite decide_False by discriminate.
  rewrite decode3_encode3 by (assumption || reflexivity).
  pose proof (assign_keeps_ledger task_id (rstrip task_data)) as Hk.
  destruct st as [ws led run dn wr tm wt out]; simpl in *; subst run.
  unfold get_running, print, task_setitem, mbind, mret, M_bind, M_ret.
  simpl.
  match goal with
  | |- context [_assign_task_to_worker ?i ?d ?s] =>
      specialize (Hk s); destruct (_assign_task_to_worker i d s) as [[[]|e] s']
  end; simpl in *; [destruct (running s')|]; simpl; assumption.
Qed.

Lemma deliver_all_unknown (task_id : string) (results : list string)
    (st : state) :
  task_to_client st !! task_id = None ->
  wire (deliver_all task_id results st) = wire st.
Proof.
  revert st. induction results as [|r results IH]; intros st Hnone;
    [reflexivity|].
  cbn [deliver_all]. rewrite (send_result_unknown _ _ _ Hnone).
  now rewrite IH.
Qed.

Lemma deliver_all_once (task_id : string) (results : list string)
    (st : state) :
  length (wire (deliver_all task_id results st)) <= S (length (wire st)).
Proof.
  destruct results as [|r results]; [simpl; lia|].
  cbn [deliver_all].
  destruct (send_result_takes task_id r st) as [_ Hgone].
  rewrite (deliver_all_unknown _ _ _ Hgone).
  destruct st as [ws led run dn wr tm wt out]. ops. simpl.
  destruct (led !! task_id) as [c|]; simpl; [|lia].
  case_decide; simpl; rewrite ?length_app; simpl; lia.
Qed.

Lemma register_all_pool (executors : list (socket * string)) (st : state) :
  running st = true ->
  Forall (fun e => (e.1 ∉ down st) /\ contains "|" e.2 = false
                   /\ rstrip e.2 = e.2) executors ->
  workers (register_all executors st) = workers st ++ executors
  /\ down (register_all executors st) = down st
  /\ running (register_all executors st) = true.
Proof.
  intros Hrun H. revert st Hrun H.
  induction executors as [|[w worker_id] es IH]; intros st Hrun H.
  - simpl. now rewrite app_nil_r.
  - apply Forall_cons in H as [(Hup & Hid & Hfix) Hes]. simpl in *.
    rewrite (register_ok _ _ _ Hup Hid), Hrun, Hfix. simpl.
    destruct (IH (State (workers st ++ [(w, worker_id)]) (task_to_client st)
                    true (down st)
                    (wire st ++ [(w, encode2 "ACK" worker_id)])
                    (timers st) (waited st)
                    (stdout st ++ [WorkerRegistered worker_id])))
      as (Hw & Hd & Hr); [reflexivity | exact Hes |].
    rewrite Hw, Hd, Hr. simpl. now rewrite <- app_assoc.
Qed.

Lemma dispatch_all_in_order (tasks : list (string * string))
    (executors rest : list (socket * string)) (st : state) :
  workers st = executors ++ rest ->
  Forall (fun e => e.1 ∉ down st) executors ->
  length tasks = length executors ->
  wire (dispatch_all tasks st)
  = wire st
    ++ zip_with (fun e t => (e.1, encode3 "ASSIGN_TASK" t.1 t.2))
         executors tasks
  /\ workers (dispatch_all tasks st) = rest.
Proof.
  revert executors st.
  induction tasks as [|[task_id task_data] tasks IH];
    intros [|[w worker_id] es] st Hw Hup Hlen; try discriminate.
  - simpl in *. now rewrite app_nil_r.
  - apply Forall_cons in Hup as [Hup Hes]. simpl in *.
    rewrite (assign_ok _ _ _ _ _ _ Hw Hup). simpl.
    destruct (IH es (State (es ++ rest) (task_to_client st) (running st)
                       (down st)
                       (wire st ++ [(w, encode3 "ASSIGN_TASK" task_id task_data)])
                       (timers st) (waited st)
                       (stdout st ++ [TaskAssigned task_id worker_id])))
      as [Hwire Hpool]; [reflexivity | exact Hes | lia |].
    rewrite Hwire, Hpool. simpl. now rewrite <- app_assoc.
Qed.

(** Reading a registration and then more input is the registration
    followed by the resumed handler. *)
Lemma handle_worker_resume (w : socket) (worker_id : string)
    (inbox : list received) (st : state) :
  w ∉ down st -> contains "|" worker_id = false -> running st = true ->
  _handle_worker w (Data (encode2 "REGISTER" worker_id) :: inbox) st
  = worker_resumed w (rstrip worker_id) inbox
      (snd (_handle_worker w [Data (encode2 "REGISTER" worker_id)] st)).
Proof.
  intros Hup Hid Hrun. rewrite (register_ok _ _ _ Hup Hid), Hrun.
  unfold _handle_worker, worker_resumed, worker_body.
  rewrite decide_False by discriminate.
  rewrite (split_register _ Hid). rewrite decide_True by reflexivity.
  destruct st as [ws led run dn wr tm wt out]; simpl in *; subst run.
  unfold handler, try_except, send, print, workers_put, mbind, mret,
    M_bind, M_ret. simpl. rewrite decide_False by assumption. simpl.
  match goal with
  | |- context [worker_loop ?a ?b ?c ?d] =>
      destruct (worker_loop a b c d) as [[[]|[]] s']
  end; reflexivity.
Qed.

Lemma receivers_in_order (executors : list (socket * string))
    (tasks : list (string * string)) :
  length tasks = length executors ->
  map fst (zip_with (fun e t => (e.1, encode3 "ASSIGN_TASK" t.1 t.2))
             executors tasks)
  = map fst executors.
Proof.
  revert tasks. induction executors as [|e es IH]; intros [|t ts] Hlen;
    try discriminate; [reflexivity|].
  simpl in *. f_equal. apply IH. lia.
Qed.

End LoadBalancerFacts.


(** ** The operations on examples *)

Example strip_line_example : Py.strip ("  TASK|t1|a b " +:+ Py.nl) = "TASK|t1|a b".
Proof. reflexivity. Qed.

Example split_max_example :
  Py.split_max "|" 2 "TASK|t1|a|b|c" = ["TASK"; "t1"; "a|b|c"].
Proof. reflexivity. Qed.

Example split_two_fields_example : Py.split "|" "TASK|t1" = ["TASK"; "t1"].
Proof. reflexivity. Qed.

Example int_underscore_example : Py.int "1_000" = inl 1000%Z.
Proof. reflexivity. Qed.

Example int_information_separator_example :
  Py.int (String (ascii_of_nat 28) "5")
  = inr (Py.invalid_literal
           ("invalid literal for int() with base 10: '"
            +:+ String Py.backslash "x1c5'")).
Proof. reflexivity. Qed.

Example process_task_sum_example : Worker.process_task "10,20,30" = "60".
Proof. reflexivity. Qed.

Example process_task_negative_example :
  Worker.process_task "-5, 2" = "-3".
Proof. reflexivity. Qed.

Example process_task_error_example :
  Worker.process_task "1,x"
  = "ERROR: invalid literal for int() with base 10: 'x'".
Proof. reflexivity. Qed.

Example process_task_empty_example :
  Worker.process_task ""
  = "ERROR: invalid literal for int() with base 10: ''".
Proof. reflexivity. Qed.

Example registration_wrong_tag_example :
  LoadBalancer._handle_worker 7
    [LoadBalancer.Data ("HELLO|w1" +:+ Py.nl)] LoadBalancer.init
  = (LoadBalancer.Ok LoadBalancer.Closed,
     LoadBalancer.State [] ∅ true {[7]} [] [] 0
       [LoadBalancer.InvalidRegistration ("HELLO|w1" +:+ Py.nl)]).
Proof. reflexivity. Qed.

Example registration_three_fields_example :
  LoadBalancer.workers
    (snd (LoadBalancer._handle_worker 7
            [LoadBalancer.Data ("REGISTER|w1|x" +:+ Py.nl)]
            LoadBalancer.init))
  = [].
Proof. reflexivity. Qed.

(** ** The claims *)

Import LoadBalancer.

(** C1, as stated, fails: the ledger holds [t1] for socket 3, the producer
    on socket 4 submits [t1], the assignment to the dictionary succeeds,
    the handler goes on and the ledger now maps [t1] to socket 4. *)
Lemma duplicate_id_replaces_entry :
  task_to_client ledger_with_t1 !! "t1" = Some 3
  /\ fst (task_setitem "t1" 4 ledger_with_t1) = Ok ()
  /\ fst (_handle_client 4 [Data (Wire.encode3 "TASK" "t1" "1,2")]
            ledger_with_t1) = Ok Open
  /\ task_to_client
       (snd (_handle_client 4 [Data (Wire.encode3 "TASK" "t1" "1,2")]
               ledger_with_t1)) !! "t1" = Some 4.
Proof. repeat split; vm_compute; reflexivity. Qed.

(** C1, as amended.  Storing a task in the ledger never fails.  After a
    task message has been handled the ledger maps its identifier to the
    producer that sent it, whether or not the identifier was there before,
    and every other identifier is mapped as before; the ledger holds one
    entry for an identifier at most. *)
Theorem admission_overwrites (c : socket) (task_id task_data : string)
    (st : state) :
  running st = true ->
  Py.contains "|" task_id = false ->
  fst (task_setitem task_id c st) = Ok ()
  /\ task_to_client
       (snd (client_loop c [Data (Wire.encode3 "TASK" task_id task_data)] st))
     = <[task_id := c]> (task_to_client st)
  /\ task_to_client
       (snd (client_loop c [Data (Wire.encode3 "TASK" task_id task_data)] st))
     !! task_id = Some c
  /\ (forall other,
        other <> task_id ->
        task_to_client
          (snd (client_loop c [Data (Wire.encode3 "TASK" task_id task_data)]
                  st)) !! other
        = task_to_client st !! other).
Proof.
  intros Hrun Hid.
  rewrite (LoadBalancerFacts.client_loop_ledger _ _ _ _ Hrun Hid).
  split; [reflexivity|]. split; [reflexivity|].
  split; [apply lookup_insert_eq|].
  intros other Hne. now apply lookup_insert_ne.
Qed.

Lemma admission_overwrites_witness :
  task_to_client
    (snd (client_loop 4 [Data (Wire.encode3 "TASK" "t1" "1,2")]
            ledger_with_t1)) !! "t1" = Some 4.
Proof.
  apply (admission_overwrites 4 "t1" "1,2" ledger_with_t1); reflexivity.
Defined.

(** C2 fails on the code.  The executor [w1] registers on socket 7 and its
    connection closes while it is idle: the handler closes the socket and
    ends, and the pool still holds the executor.  The next acquisition
    returns it, and the task assigned to it is lost with an [OSError]. *)
Theorem closed_idle_executor_stays_in_pool :
  let closed :=
    _handle_worker 7 [Data (Wire.encode2 "REGISTER" "w1"); Data ""] init in
  fst closed = Ok Closed
  /\ 7 ∈ down (snd closed)
  /\ workers (snd closed) = [(7, "w1")]
  /\ fst (workers_get 5 (snd closed)) = Ok (7, "w1")
  /\ fst (_assign_task_to_worker "t1" "1,2" (snd closed)) = Raise OSError.
Proof.
  cbv zeta. split; [reflexivity|]. split; [|repeat split; reflexivity].
  apply (bool_decide_unpack _). vm_compute. exact I.
Qed.

(** C3, as stated, fails: the first executor's socket is down and a second
    executor is idle; the assignment raises [OSError], nothing is sent to the
    second executor and no timer is started.  In the producer's handler the
    exception closes the producer's connection. *)
Lemma send_failure_is_not_retried :
  _assign_task_to_worker "t1" "1,2" first_executor_down
  = (Raise OSError, State [(8, "w2")] ∅ true {[7]} [] [] 0 [])
  /\ fst (_handle_client 3 [Data (Wire.encode3 "TASK" "t1" "1,2")]
            first_executor_down) = Ok Closed
  /\ wire (snd (_handle_client 3 [Data (Wire.encode3 "TASK" "t1" "1,2")]
                  first_executor_down)) = [].
Proof. repeat split; vm_compute; reflexivity. Qed.

(** C3, as amended.  When the message cannot be sent on the connection of
    the executor that was acquired, that executor has left the pool and is
    not put back, and the failure propagates to the caller: no other
    executor is tried, nothing is sent and no retry is scheduled. *)
Theorem send_failure_propagates (task_id task_data : string) (st : state)
    (w : socket) (worker_id : string) (rest : list (socket * string)) :
  workers st = (w, worker_id) :: rest ->
  w ∈ down st ->
  _assign_task_to_worker task_id task_data st
  = (Raise OSError,
     State rest (task_to_client st) (running st) (down st) (wire st)
       (timers st) (waited st) (stdout st)).
Proof. apply LoadBalancerFacts.assign_send_fails. Qed.

Lemma send_failure_propagates_witness :
  _assign_task_to_worker "t1" "1,2" first_executor_down
  = (Raise OSError, State [(8, "w2")] ∅ true {[7]} [] [] 0 []).
Proof.
  apply (send_failure_propagates "t1" "1,2" first_executor_down 7 "w1"
           [(8, "w2")]); [reflexivity|].
  apply (bool_decide_unpack _). vm_compute. exact I.
Defined.

(** C4.  One executor [w1] registers on socket 7 and is idle; the producer
    on socket 3 sends TASK|t1|1,2,3,4,5.  The broker sends
    ASSIGN_TASK|t1|1,2,3,4,5 to the executor, the worker answers that
    message with TASK_RESULT|t1|15, and on that answer the broker sends
    RESULT|t1|15 to the producer.  The executor is idle again and the ledger
    is empty. *)
Theorem scenario_t1 :
  let registered :=
    _handle_worker 7 [Data ("REGISTER|w1" +:+ Py.nl)] init in
  let admitted :=
    _handle_client 3 [Data ("TASK|t1|1,2,3,4,5" +:+ Py.nl)] (snd registered) in
  let answer := Worker.on_recv ("ASSIGN_TASK|t1|1,2,3,4,5" +:+ Py.nl) in
  let routed :=
    worker_resumed 7 "w1" [Data ("TASK_RESULT|t1|15" +:+ Py.nl)]
      (snd admitted) in
  fst registered = Ok Open
  /\ workers (snd registered) = [(7, "w1")]
  /\ fst admitted = Ok Open
  /\ wire (snd admitted)
     = wire (snd registered) ++ [(7, "ASSIGN_TASK|t1|1,2,3,4,5" +:+ Py.nl)]
  /\ Worker.process_task "1,2,3,4,5" = "15"
  /\ answer = Worker.Reply ("TASK_RESULT|t1|15" +:+ Py.nl)
  /\ fst routed = Ok Open
  /\ wire (snd routed) = wire (snd admitted) ++ [(3, "RESULT|t1|15" +:+ Py.nl)]
  /\ wire (snd routed)
     = [(7, "ACK|w1" +:+ Py.nl);
        (7, "ASSIGN_TASK|t1|1,2,3,4,5" +:+ Py.nl);
        (3, "RESULT|t1|15" +:+ Py.nl)]
  /\ workers (snd routed) = [(7, "w1")]
  /\ task_to_client (snd routed) = ∅.
Proof. cbv zeta. repeat split; vm_compute; reflexivity. Qed.

(** C5.  Executors register one after the other with a pool that was empty,
    and as many tasks are then dispatched one after the other with no result
    in between.  The pool after the registrations is the list of executors
    in the order of registration; the k-th task is sent to the k-th executor
    and to no other, so each executor gets one task; the pool is empty at
    the end. *)
Theorem round_robin (executors : list (socket * string))
    (tasks : list (string * string)) (st : state) :
  workers st = [] ->
  running st = true ->
  Forall (fun e => (e.1 ∉ down st) /\ Py.contains "|" e.2 = false
                   /\ Py.rstrip e.2 = e.2) executors ->
  length tasks = length executors ->
  let assignments :=
    zip_with (fun e t => (e.1, Wire.encode3 "ASSIGN_TASK" t.1 t.2))
      executors tasks in
  workers (register_all executors st) = executors
  /\ wire (dispatch_all tasks (register_all executors st))
     = wire (register_all executors st) ++ assignments
  /\ map fst assignments = map fst executors
  /\ workers (dispatch_all tasks (register_all executors st)) = [].
Proof.
  intros Hempty Hrun Hex Hlen assignments.
  destruct (LoadBalancerFacts.register_all_pool _ _ Hrun Hex)
    as (Hpool & Hdown & _).
  rewrite Hempty in Hpool. simpl in Hpool. split; [exact Hpool|].
  destruct (LoadBalancerFacts.dispatch_all_in_order tasks executors []
              (register_all executors st)) as [Hwire Hrest].
  - now rewrite Hpool, app_nil_r.
  - rewrite Hdown. eapply Forall_impl; [exact Hex|]. now intros e [H _].
  - exact Hlen.
  - split; [exact Hwire|]. split; [|exact Hrest].
    now apply LoadBalancerFacts.receivers_in_order.
Qed.

Lemma round_robin_witness :
  wire (dispatch_all [("t1", "1"); ("t2", "2"); ("t3", "3")]
          (register_all [(7, "w1"); (8, "w2"); (9, "w3")] init))
  = wire (register_all [(7, "w1"); (8, "w2"); (9, "w3")] init)
    ++ [(7, Wire.encode3 "ASSIGN_TASK" "t1" "1");
        (8, Wire.encode3 "ASSIGN_TASK" "t2" "2");
        (9, Wire.encode3 "ASSIGN_TASK" "t3" "3")].
Proof.
  apply (round_robin [(7, "w1"); (8, "w2"); (9, "w3")]
           [("t1", "1"); ("t2", "2"); ("t3", "3")] init);
    try reflexivity.
  repeat constructor; simpl; set_solver.
Defined.

(** C6.  Taking an identifier from the ledger removes it.  A result for an
    identifier the ledger holds goes to its producer once, the entry is gone,
    and however many results then arrive for the identifier the broker sends
    one RESULT for it at most.  A TASK_RESULT for an identifier the ledger
    does not hold is dropped with the line that says so: nothing is sent,
    no exception is raised, the executor goes back to the pool and its
    handler reads on. *)
Theorem result_routed_once (task_id result_data : string) (st : state) :
  (forall c,
      task_to_client st !! task_id = Some c -> c ∉ down st ->
      _send_result_to_client task_id result_data st
      = (Ok (),
         State (workers st) (delete task_id (task_to_client st)) (running st)
           (down st)
           (wire st ++ [(c, Wire.encode3 "RESULT" task_id result_data)])
           (timers st) (waited st) (stdout st ++ [ResultSent task_id])))
  /\ task_to_client (snd (_send_result_to_client task_id result_data st))
     !! task_id = None
  /\ (forall results,
        length (wire (deliver_all task_id results st))
        <= S (length (wire st)))
  /\ (task_to_client st !! task_id = None ->
      _send_result_to_client task_id result_data st
      = (Ok (),
         State (workers st) (task_to_client st) (running st) (down st)
           (wire st) (timers st) (waited st)
           (stdout st ++ [NoClient task_id])))
  /\ (forall w worker_id,
        task_to_client st !! task_id = None ->
        running st = true -> Py.contains "|" task_id = false ->
        worker_loop w worker_id
          [Data (Wire.encode3 "TASK_RESULT" task_id result_data)] st
        = (Ok Blocked,
           State (workers st ++ [(w, worker_id)]) (task_to_client st)
             (running st) (down st) (wire st) (timers st) (waited st)
             (stdout st ++ [ResultReceived task_id; NoClient task_id]))).
Proof.
  split; [intros c; apply LoadBalancerFacts.send_result_found|].
  split; [apply LoadBalancerFacts.send_result_takes|].
  split; [intros results; apply LoadBalancerFacts.deliver_all_once|].
  split; [apply LoadBalancerFacts.send_result_unknown|].
  intros w worker_id Hnone Hrun Hid.
  now apply LoadBalancerFacts.worker_loop_unknown.
Qed.

Lemma result_routed_once_witness :
  _send_result_to_client "t1" "15" ledger_with_t1
  = (Ok (),
     State [] (delete "t1" {["t1" := 3]}) true ∅
       [(3, Wire.encode3 "RESULT" "t1" "15")] [] 0 [ResultSent "t1"])
  /\ worker_loop 7 "w1" [Data (Wire.encode3 "TASK_RESULT" "t9" "15")]
       ledger_with_t1
     = (Ok Blocked,
        State [(7, "w1")] {["t1" := 3]} true ∅ [] [] 0
          [ResultReceived "t9"; NoClient "t9"]).
Proof.
  split.
  - apply (result_routed_once "t1" "15" ledger_with_t1);
      [reflexivity | set_solver].
  - apply (result_routed_once "t9" "15" ledger_with_t1); reflexivity.
Defined.

(** C7.  With no idle executor the acquisition waits for its timeout of
    five seconds, no longer, and raises [Empty].  The assignment then
    returns without an exception, having sent nothing, left the ledger as it
    was and started one timer of one second for the same task.  When that
    timer fires with an executor in the pool, the task is sent to it. *)
Theorem no_idle_executor_retries (task_id task_data : string) (st : state) :
  workers st = [] ->
  workers_get 5 st
  = (Raise Empty,
     State [] (task_to_client st) (running st) (down st) (wire st)
       (timers st) (waited st + 5) (stdout st))
  /\ _assign_task_to_worker task_id task_data st
     = (Ok (),
        State [] (task_to_client st) (running st) (down st) (wire st)
          (timers st ++ [Timer 1 task_id task_data]) (waited st + 5)
          (stdout st ++ [NoWorkers task_id]))
  /\ (forall w worker_id,
        timers st = [] -> w ∉ down st ->
        wire (snd (fire_timer
                     (snd (workers_put (w, worker_id)
                             (snd (_assign_task_to_worker task_id task_data
                                     st))))))
        = wire st ++ [(w, Wire.encode3 "ASSIGN_TASK" task_id task_data)]).
Proof.
  intros Hempty. split; [|split].
  - unfold workers_get. now rewrite Hempty.
  - now apply LoadBalancerFacts.assign_empty.
  - intros w worker_id Htimers Hup.
    rewrite (LoadBalancerFacts.assign_empty _ _ _ Hempty).
    unfold fire_timer, workers_put. simpl. rewrite Htimers. simpl.
    now rewrite (LoadBalancerFacts.assign_ok task_id task_data _ w worker_id []).
Qed.

Lemma no_idle_executor_retries_witness :
  _assign_task_to_worker "t1" "1,2" init
  = (Ok (), State [] ∅ true ∅ [] [Timer 1 "t1" "1,2"] 5 [NoWorkers "t1"]).
Proof. apply (no_idle_executor_retries "t1" "1,2" init). reflexivity. Defined.

(** C8, as amended.  A received line is stripped of the whitespace at its two
    ends and then cut at its first two delimiters, into at most three parts.
    For each of the tags TASK, ASSIGN_TASK and TASK_RESULT and an identifier
    with no delimiter in it, decoding the encoded message gives back the
    identifier and the last field without its trailing whitespace: every
    delimiter inside the last field is kept, and a last field that does not
    end in whitespace is kept as it is. *)
Theorem decode3_keeps_delimiters (tag task_id last : string) :
  In tag ["TASK"; "ASSIGN_TASK"; "TASK_RESULT"] ->
  Py.contains "|" task_id = false ->
  (forall data, length (Py.split_max "|" 2 (Py.strip data)) <= 3)
  /\ Py.split_max "|" 2 (Py.strip (Wire.encode3 tag task_id last))
     = [tag; task_id; Py.rstrip last]
  /\ Wire.decode3 tag (Wire.encode3 tag task_id last)
     = Some (task_id, Py.rstrip last)
  /\ (Py.rstrip last = last ->
      Wire.decode3 tag (Wire.encode3 tag task_id last) = Some (task_id, last)).
Proof.
  intros Htag Hid.
  assert (Hl : Py.lstrip tag = tag /\ Py.contains "|" tag = false).
  { simpl in Htag. destruct Htag as [<-|[<-|[<-|[]]]]; now split. }
  destruct Hl as [Hl Hp].
  split; [intros data; apply WireFacts.split_max_length|].
  split; [now apply WireFacts.split_encode3|].
  split; [now apply WireFacts.decode3_encode3|].
  intros Hlast. rewrite <- Hlast at 2. now apply WireFacts.decode3_encode3.
Qed.

Lemma decode3_keeps_delimiters_witness :
  Wire.decode3 "TASK" (Wire.encode3 "TASK" "t1" "a|b|c")
  = Some ("t1", "a|b|c").
Proof.
  apply (decode3_keeps_delimiters "TASK" "t1" "a|b|c");
    [simpl; auto | reflexivity | reflexivity].
Defined.

(** C8, as stated, fails: the whitespace at the end of the last field is
    lost in decoding. *)
Lemma decode3_drops_trailing_blank :
  Wire.decode3 "TASK" (Wire.encode3 "TASK" "t1" "a|b ") = Some ("t1", "a|b")
  /\ "a|b" <> "a|b ".
Proof. split; [reflexivity | discriminate]. Qed.

(** C9.  When the first line an executor sends is REGISTER|executor_id, the
    broker answers ACK|executor_id on the same connection and puts the
    executor at the tail of the pool of idle executors; the identifier is
    read without the whitespace at its end.  On any other first message the
    handler ends, its socket is closed and the pool is as it was, whatever
    else the connection carries. *)
Theorem registration_handshake (w : socket) (st : state) :
  w ∉ down st ->
  (forall worker_id,
      Py.contains "|" worker_id = false ->
      _handle_worker w [Data (Wire.encode2 "REGISTER" worker_id)] st
      = (Ok (if running st then Open else Closed),
         State (workers st ++ [(w, Py.rstrip worker_id)]) (task_to_client st)
           (running st) (if running st then down st else {[w]} ∪ down st)
           (wire st ++ [(w, Wire.encode2 "ACK" (Py.rstrip worker_id))])
           (timers st) (waited st)
           (stdout st ++ [WorkerRegistered (Py.rstrip worker_id)])))
  /\ (forall data inbox,
        (forall worker_id,
            Py.split "|" (Py.strip data) <> ["REGISTER"; worker_id]) ->
        fst (_handle_worker w (Data data :: inbox) st) = Ok Closed
        /\ workers (snd (_handle_worker w (Data data :: inbox) st))
           = workers st
        /\ wire (snd (_handle_worker w (Data data :: inbox) st)) = wire st
        /\ w ∈ down (snd (_handle_worker w (Data data :: inbox) st))).
Proof.
  intros Hup. split.
  - intros worker_id Hid. now apply LoadBalancerFacts.register_ok.
  - intros data inbox Hbad.
    rewrite (LoadBalancerFacts.register_rejected _ _ _ _ Hbad). simpl.
    repeat split; set_solver.
Qed.

Lemma registration_handshake_witness :
  _handle_worker 7 [Data (Wire.encode2 "REGISTER" "w1")] init
  = (Ok Open,
     State [(7, "w1")] ∅ true ∅ [(7, Wire.encode2 "ACK" "w1")] [] 0
       [WorkerRegistered "w1"]).
Proof.
  apply (registration_handshake 7 init); [set_solver | reflexivity].
Defined.



(** ** More about the worker's computation *)

Module ProcessTaskFacts.
Import Py PyFacts Literal IntFacts Wire WireFacts Worker.


Lemma lstrip_rstrip (x : string) : lstrip (rstrip x) = rstrip (lstrip x).
Proof.
  induction x as [|c x IH]; [reflexivity|]. simpl.
  destruct (isspace c) eqn:Hc.
  - rewrite <- IH. destruct (rstrip x); simpl; now rewrite ?Hc.
  - rewrite (rstrip_cons _ _ Hc). destruct (rstrip x); simpl; now rewrite Hc.
Qed.

Lemma strip_rstrip_eq (a b : string) : rstrip a = rstrip b -> strip a = strip b.
Proof. intros H. unfold strip. now rewrite <- !lstrip_rstrip, H. Qed.

Lemma strip_lstrip_eq (a b : string) : lstrip a = lstrip b -> strip a = strip b.
Proof. intros H. unfold strip. now rewrite H. Qed.

Lemma split_rstrip (sep : ascii) (s : string) :
  isspace sep = false ->
  Forall2 (fun a b => rstrip a = rstrip b) (split sep (rstrip s)) (split sep s).
Proof.
  intros Hsep. induction s as [|c s IH]; [now repeat constructor|].
  cbn [rstrip]. destruct (rstrip s) as [|d u] eqn:E.
  - cbn [split] in *. inversion IH as [|a h l t Hh Ht E1 E2]; subst.
    inversion Ht; subst. simpl in Hh.
    case_decide as Hc.
    + subst c. rewrite Hsep. cbn [split]. rewrite decide_True by reflexivity.
      repeat constructor. simpl. congruence.
    + destruct (isspace c) eqn:Hsp.
      * repeat constructor. simpl. now rewrite <- Hh, Hsp.
      * cbn [split]. rewrite decide_False by assumption.
        repeat constructor. simpl. now rewrite <- Hh, Hsp.
  - remember (String d u) as r eqn:Er. cbn [split]. case_decide as Hc.
    + constructor; [reflexivity | exact IH].
    + destruct (split sep r) as [|h1 t1];
        destruct (split sep s) as [|h2 t2];
        inversion IH as [|? ? ? ? Hh Ht]; subst.
      * repeat constructor.
      * constructor; [|assumption]. simpl. now rewrite Hh.
Qed.

Lemma split_lstrip (sep : ascii) (s : string) :
  isspace sep = false ->
  exists h1 h2 t,
    split sep (lstrip s) = h1 :: t /\ split sep s = h2 :: t /\
    lstrip h1 = lstrip h2.
Proof.
  intros Hsep. induction s as [|c s (h1 & h2 & t & E1 & E2 & Hh)].
  - now exists "", "", []. 
  - cbn [lstrip]. destruct (isspace c) eqn:Hc.
    + cbn [split]. rewrite decide_False by (intros ->; congruence).
      rewrite E2. exists h1, (String c h2), t. repeat split; auto.
      simpl. now rewrite Hc.
    + destruct (split sep (String c s)) as [|h t'] eqn:E.
      * cbn [split] in E. case_decide; [discriminate|].
        destruct (split sep s); discriminate.
      * now exists h, h, t'.
Qed.

Lemma numbers_of_strip_eq (xs ys : list string) :
  Forall2 (fun a b => strip a = strip b) xs ys ->
  numbers_of xs = numbers_of ys.
Proof.
  induction 1 as [|a b xs ys Hab _ IH]; [reflexivity|].
  simpl. now rewrite Hab, IH.
Qed.

Lemma comma_not_space : isspace "," = false.
Proof. reflexivity. Qed.

Lemma process_task_rstrip (task_data : string) :
  process_task (rstrip task_data) = process_task task_data.
Proof.
  unfold process_task.
  assert (E : numbers_of (split "," (rstrip task_data))
              = numbers_of (split "," task_data)); [|now rewrite E].
  apply numbers_of_strip_eq.
  eapply Forall2_impl; [apply (split_rstrip _ _ comma_not_space)|].
  intros a b. apply strip_rstrip_eq.
Qed.

Lemma process_task_lstrip (task_data : string) :
  process_task (lstrip task_data) = process_task task_data.
Proof.
  unfold process_task.
  destruct (split_lstrip "," task_data comma_not_space)
    as (h1 & h2 & t & -> & -> & Hh).
  simpl. now rewrite (strip_lstrip_eq _ _ Hh).
Qed.









End ProcessTaskFacts.

(** ** One message through a handler *)

Module SessionFacts.
Import Py PyFacts Wire WireFacts LoadBalancer LoadBalancerFacts.


(** A task message with no idle executor. *)
Lemma client_loop_deferred (c : socket) (task_id task_data : string)
    (st : state) :
  running st = true -> contains "|" task_id = false -> workers st = [] ->
  client_loop c [Data (encode3 "TASK" task_id task_data)] st
  = (Ok Blocked,
     State [] (<[task_id := c]> (task_to_client st)) true (down st) (wire st)
       (timers st ++ [Timer 1 task_id (rstrip task_data)]) (waited st + 5)
       (stdout st ++ [TaskReceived task_id; NoWorkers task_id])).
Proof.
  intros Hrun Hid Hw. cbn [client_loop].
  rewrite decide_False by discriminate.
  rewrite decode3_encode3 by (assumption || reflexivity).
  destruct st as [ws led run dn wr tm wt out]; simpl in *; subst.
  ops. simpl. now rewrite <- app_assoc.
Qed.


(** A result for a task whose producer has gone. *)
Lemma worker_loop_client_gone (w c : socket)
    (worker_id task_id result_data : string) (st : state) :
  running st = true -> contains "|" task_id = false ->
  task_to_client st !! task_id = Some c -> c ∈ down st ->
  worker_loop w worker_id [Data (encode3 "TASK_RESULT" task_id result_data)] st
  = (Ok Blocked,
     State (workers st ++ [(w, worker_id)]) (delete task_id (task_to_client st))
       true (down st) (wire st) (timers st) (waited st)
       (stdout st ++ [ResultReceived task_id; ClientGone])).
Proof.
  intros Hrun Hid Hc Hdown. cbn [worker_loop].
  rewrite decide_False by discriminate.
  rewrite decode3_encode3 by (assumption || reflexivity).
  destruct st as [ws led run dn wr tm wt out]; simpl in *; subst.
  ops. simpl. rewrite Hc. simpl. rewrite decide_True by assumption. simpl.
  now rewrite <- app_assoc.
Qed.

Lemma handler_blocked (sock : socket) (gone : line) (body : M loop)
    (st st' : state) :
  body st = (Ok Blocked, st') -> handler sock gone body st = (Ok Open, st').
Proof. intros H. unfold handler, try_except. now rewrite H. Qed.

End SessionFacts.

(** ** Messages between the three programs *)

Module PeerFacts.
Import Py PyFacts Literal IntFacts Wire WireFacts Worker WorkerFacts.
Import ProcessTaskFacts.



Lemma process_task_strip (task_data : string) :
  process_task (strip task_data) = process_task task_data.
Proof. unfold strip. now rewrite process_task_rstrip, process_task_lstrip. Qed.


Lemma split_encode2 (tag a : string) :
  lstrip tag = tag -> contains "|" tag = false -> contains "|" a = false ->
  split "|" (strip (encode2 tag a)) = [tag; rstrip a].
Proof.
  intros Htag Hpt Hpa. rewrite (strip_encode2 _ _ Htag).
  change (tag +:+ "|" +:+ rstrip a) with (tag +:+ String "|" (rstrip a)).
  rewrite (split_field _ _ _ Hpt).
  now rewrite (split_last _ _ (LoadBalancerFacts.contains_rstrip _ _ Hpa)).
Qed.

Lemma contains_rstrip_true (c : ascii) (s : string) :
  isspace c = false -> contains c s = true -> contains c (rstrip s) = true.
Proof.
  intros Hc. induction s as [|d s IH]; [discriminate|]. simpl.
  case_decide as Hd.
  - subst d. intros _. rewrite Hc.
    destruct (rstrip s); simpl; now rewrite decide_True.
  - intros H. specialize (IH H). destruct (rstrip s) as [|e r]; [discriminate|].
    cbn [contains]. now rewrite decide_False.
Qed.

Lemma split_two_or_more (sep : ascii) (s : string) :
  contains sep s = true -> exists a b l, split sep s = a :: b :: l.
Proof.
  induction s as [|c s IH]; [discriminate|]. simpl.
  case_decide as Hc.
  - intros _. destruct (split sep s) as [|b l] eqn:E.
    + destruct s; simpl in E; [discriminate|].
      case_decide; [discriminate|]. destruct (split sep s); discriminate.
    + now exists "", b, l.
  - intros H. destruct (IH H) as (a & b & l & ->). now exists (String c a), b, l.
Qed.

(** An identifier with the delimiter in it makes a registration of three
    fields or more. *)
Lemma register_with_delimiter (worker_id w' : string) :
  contains "|" worker_id = true ->
  split "|" (strip (encode2 "REGISTER" worker_id)) <> ["REGISTER"; w'].
Proof.
  intros H. rewrite strip_encode2 by reflexivity.
  change ("REGISTER" +:+ "|" +:+ rstrip worker_id)
    with ("REGISTER" +:+ String "|" (rstrip worker_id)).
  rewrite split_field by reflexivity.
  destruct (split_two_or_more "|" (rstrip worker_id)) as (a & b & l & ->);
    [now apply contains_rstrip_true|discriminate].
Qed.

End PeerFacts.

(** ** Handlers on any input *)

Module RunFacts.
Import Py PyFacts Wire WireFacts LoadBalancer LoadBalancerFacts.

(** Whatever the ledger and the sockets are, handling a result raises
    nothing and leaves the pool, the flag, the sockets and the timers. *)
Lemma send_result_frame (task_id result_data : string) (st : state) :
  exists led wr out,
    _send_result_to_client task_id result_data st
    = (Ok (),
       State (workers st) led (running st) (down st) wr (timers st)
         (waited st) out).
Proof.
  destruct st as [ws led run dn wr tm wt out]. ops. simpl.
  destruct (led !! task_id) as [c|]; simpl; [case_decide|]; simpl; eauto.
Qed.

Lemma worker_loop_result_step (w : socket)
    (worker_id task_id result_data : string) (inbox : list received)
    (st : state) :
  running st = true -> contains "|" task_id = false ->
  exists st1,
    worker_loop w worker_id
      (Data (encode3 "TASK_RESULT" task_id result_data) :: inbox) st
    = worker_loop w worker_id inbox st1
    /\ workers st1 = workers st ++ [(w, worker_id)]
    /\ running st1 = true.
Proof.
  intros Hrun Hid. cbn [worker_loop].
  rewrite decide_False by discriminate.
  rewrite decode3_encode3 by (assumption || reflexivity).
  destruct (send_result_frame task_id (rstrip result_data)
              (State (workers st) (task_to_client st) (running st) (down st)
                 (wire st) (timers st) (waited st)
                 (stdout st ++ [ResultReceived task_id])))
    as (led & wr & out & E).
  destruct st as [ws led0 run dn wr0 tm wt out0]; simpl in *; subst run.
  unfold get_running, print, workers_put, mbind, mret, M_bind, M_ret.
  simpl. rewrite E. simpl. eexists. split; [reflexivity|]. now split.
Qed.

Lemma worker_loop_results (w : socket) (worker_id : string)
    (results : list (string * string)) (st : state) :
  running st = true ->
  Forall (fun r => contains "|" r.1 = false) results ->
  fst (worker_loop w worker_id
         (map (fun r => Data (encode3 "TASK_RESULT" r.1 r.2)) results) st)
  = Ok Blocked
  /\ workers
       (snd (worker_loop w worker_id
               (map (fun r => Data (encode3 "TASK_RESULT" r.1 r.2)) results)
               st))
     = workers st ++ replicate (length results) (w, worker_id).
Proof.
  intros Hrun H. revert st Hrun.
  induction H as [|[task_id result_data] results Hid _ IH]; intros st Hrun.
  - simpl. unfold get_running, mbind, mret, M_bind, M_ret. simpl.
    rewrite Hrun. simpl. now rewrite app_nil_r.
  - cbn [map length replicate fst snd].
    destruct (worker_loop_result_step w worker_id task_id result_data
                (map (fun r => Data (encode3 "TASK_RESULT" r.1 r.2)) results)
                st Hrun Hid) as (st1 & -> & Hw & Hr).
    destruct (IH st1 Hr) as [Hfst Hsnd]. split; [exact Hfst|].
    rewrite Hsnd, Hw. now rewrite <- app_assoc.
Qed.

Lemma client_eof (c : socket) (st : state) :
  _handle_client c [Data ""] st
  = (Ok Closed,
     State (workers st) (task_to_client st) (running st) ({[c]} ∪ down st)
       (wire st) (timers st) (waited st) (stdout st)).
Proof.
  destruct st as [ws led run dn wr tm wt out].
  unfold _handle_client. ops. simpl. now destruct run.
Qed.

Lemma dispatch_all_app (a b : list (string * string)) (st : state) :
  dispatch_all (a ++ b) st = dispatch_all b (dispatch_all a st).
Proof.
  revert st. induction a as [|[task_id task_data] a IH]; intros st;
    [reflexivity|]. simpl. apply IH.
Qed.

Lemma dispatch_all_assigned (tasks : list (string * string))
    (executors : list (socket * string)) (st : state) :
  workers st = executors ->
  Forall (fun e => e.1 ∉ down st) executors ->
  length tasks = length executors ->
  dispatch_all tasks st
  = State [] (task_to_client st) (running st) (down st)
      (wire st
       ++ zip_with (fun e t => (e.1, encode3 "ASSIGN_TASK" t.1 t.2))
            executors tasks)
      (timers st) (waited st)
      (stdout st
       ++ zip_with (fun e t => TaskAssigned t.1 e.2) executors tasks).
Proof.
  revert executors st.
  induction tasks as [|[task_id task_data] tasks IH];
    intros [|[w worker_id] es] st Hw Hup Hlen; try discriminate.
  - destruct st; simpl in *; subst. now rewrite !app_nil_r.
  - apply Forall_cons in Hup as [Hup Hes]. simpl in *.
    rewrite (assign_ok _ _ _ _ _ _ Hw Hup). simpl.
    rewrite (IH es); simpl; [|reflexivity|exact Hes|lia].
    now rewrite <- !app_assoc.
Qed.

Lemma dispatch_all_deferred (tasks : list (string * string)) (st : state) :
  workers st = [] ->
  dispatch_all tasks st
  = State [] (task_to_client st) (running st) (down st) (wire st)
      (timers st ++ map (fun t => Timer 1 t.1 t.2) tasks)
      (waited st + 5 * length tasks)
      (stdout st ++ map (fun t => NoWorkers t.1) tasks).
Proof.
  revert st. induction tasks as [|[task_id task_data] tasks IH]; intros st Hw.
  - destruct st; simpl in *; subst. rewrite !app_nil_r. f_equal. lia.
  - simpl. rewrite (assign_empty _ _ _ Hw). simpl.
    rewrite IH by reflexivity. simpl. rewrite <- !app_assoc. simpl.
    f_equal. lia.
Qed.

Lemma fire_timer_deferred (task_id task_data : string) (rest : list timer)
    (st : state) :
  workers st = [] -> timers st = Timer 1 task_id task_data :: rest ->
  fire_timer st
  = (Ok (),
     State [] (task_to_client st) (running st) (down st) (wire st)
       (rest ++ [Timer 1 task_id task_data]) (waited st + 5)
       (stdout st ++ [NoWorkers task_id])).
Proof.
  intros Hw Ht. unfold fire_timer. rewrite Ht. simpl.
  now rewrite assign_empty.
Qed.

Lemma fire_timers_deferred (n : nat) (st : state) :
  workers st = [] ->
  Forall (fun t => interval t = 1) (timers st) ->
  timers (fire_timers n st) ≡ₚ timers st
  /\ wire (fire_timers n st) = wire st
  /\ workers (fire_timers n st) = []
  /\ task_to_client (fire_timers n st) = task_to_client st.
Proof.
  revert st. induction n as [|n IH]; intros st Hw Ht; [now simpl|].
  cbn [fire_timers]. destruct (timers st) as [|[i task_id task_data] rest] eqn:E.
  - assert (Hf : fire_timer st = (Ok (), st)) by (unfold fire_timer; now rewrite E).
    rewrite Hf. cbn [snd]. destruct (IH st Hw) as (H1 & H2 & H3 & H4);
      [now rewrite E|]. rewrite E in H1. auto.
  - apply Forall_cons in Ht as [Hi Hrest]. simpl in Hi. subst i.
    rewrite (fire_timer_deferred _ _ _ _ Hw E). cbn [snd].
    destruct (IH (State [] (task_to_client st) (running st) (down st)
                    (wire st) (rest ++ [Timer 1 task_id task_data])
                    (waited st + 5) (stdout st ++ [NoWorkers task_id])))
      as (H1 & H2 & H3 & H4); [reflexivity | |].
    + simpl. apply Forall_app. split; [exact Hrest|]. now repeat constructor.
    + simpl in *. repeat split; auto.
      rewrite H1. symmetry. apply Permutation_cons_append.
Qed.

Lemma client_loop_invalid (c : socket) (lines : list string) (st : state) :
  running st = true ->
  Forall (fun d => d <> "" /\ decode3 "TASK" d = None) lines ->
  client_loop c (map Data lines) st
  = (Ok Blocked,
     State (workers st) (task_to_client st) (running st) (down st) (wire st)
       (timers st) (waited st) (stdout st ++ map InvalidMessage lines)).
Proof.
  intros Hrun H. revert st Hrun.
  induction H as [|d lines [Hne Hd] _ IH]; intros st Hrun.
  - destruct st; simpl in *; subst. unfold get_running, mbind, mret, M_bind,
      M_ret. simpl. now rewrite app_nil_r.
  - cbn [map client_loop]. rewrite decide_False by assumption. rewrite Hd.
    destruct st as [ws led run dn wr tm wt out]; simpl in *; subst run.
    unfold get_running, print, mbind, mret, M_bind, M_ret. simpl.
    rewrite (IH (State ws led true dn wr tm wt (out ++ [InvalidMessage d])))
      by reflexivity. simpl. now rewrite <- app_assoc.
Qed.

Lemma worker_loop_invalid (w : socket) (worker_id : string)
    (lines : list string) (st : state) :
  running st = true ->
  Forall (fun d => d <> "" /\ decode3 "TASK_RESULT" d = None) lines ->
  worker_loop w worker_id (map Data lines) st = (Ok Blocked, st).
Proof.
  intros Hrun H. revert st Hrun.
  induction H as [|d lines [Hne Hd] _ IH]; intros st Hrun.
  - simpl. unfold get_running, mbind, mret, M_bind, M_ret. simpl.
    now rewrite Hrun.
  - cbn [map worker_loop]. rewrite decide_False by assumption. rewrite Hd.
    unfold get_running, mbind, mret, M_bind, M_ret. simpl. rewrite Hrun.
    simpl. now apply IH.
Qed.

Lemma split_max_last (sep : ascii) (m : nat) (a : string) :
  contains sep a = false -> split_max sep m a = [a].
Proof.
  revert m. induction a as [|c a IH]; intros [|m] Ha; try reflexivity.
  simpl in Ha. case_decide; [discriminate|].
  cbn [split_max]. rewrite decide_False by assumption. now rewrite (IH _ Ha).
Qed.

Lemma split_not_nil (sep : ascii) (s : string) :
  exists h t, split sep s = h :: t.
Proof.
  destruct s as [|c s]; simpl; [eauto|]. case_decide; [eauto|].
  destruct (split sep s); eauto.
Qed.

Lemma assign_cases (task_id task_data : string) (st : state) :
  (workers st = []
   /\ _assign_task_to_worker task_id task_data st
      = (Ok (),
         State [] (task_to_client st) (running st) (down st) (wire st)
           (timers st ++ [Timer 1 task_id task_data]) (waited st + 5)
           (stdout st ++ [NoWorkers task_id])))
  \/ (exists w worker_id rest,
        workers st = (w, worker_id) :: rest /\ (w ∈ down st)
        /\ _assign_task_to_worker task_id task_data st
           = (Raise OSError,
              State rest (task_to_client st) (running st) (down st) (wire st)
                (timers st) (waited st) (stdout st)))
  \/ (exists w worker_id rest,
        workers st = (w, worker_id) :: rest /\ (w ∉ down st)
        /\ _assign_task_to_worker task_id task_data st
           = (Ok (),
              State rest (task_to_client st) (running st) (down st)
                (wire st ++ [(w, encode3 "ASSIGN_TASK" task_id task_data)])
                (timers st) (waited st)
                (stdout st ++ [TaskAssigned task_id worker_id]))).
Proof.
  destruct (workers st) as [|[w worker_id] rest] eqn:Hw.
  - left. split; [reflexivity|]. now apply assign_empty.
  - right. destruct (decide (w ∈ down st)) as [Hd|Hd]; [left|right];
      exists w, worker_id, rest; repeat split; auto.
    + eapply assign_send_fails; eauto.
    + eapply assign_ok; eauto.
Qed.

(** What the loop of a producer's handler leaves alone, on any input. *)
Lemma client_loop_frame (c : socket) (inbox : list received) (st : state) :
  running (snd (client_loop c inbox st)) = running st
  /\ down (snd (client_loop c inbox st)) = down st
  /\ (forall task_id,
        task_to_client (snd (client_loop c inbox st)) !! task_id
        = task_to_client st !! task_id
        \/ task_to_client (snd (client_loop c inbox st)) !! task_id = Some c)
  /\ exists taken new,
       workers st = taken ++ workers (snd (client_loop c inbox st))
       /\ wire (snd (client_loop c inbox st)) = wire st ++ new
       /\ Forall (fun m => m.1 ∈ taken.*1) new.
Proof.
  assert (Hbase : forall (st0 : state) (b : bool),
    running st0 = b ->
    running st0 = b /\ down st0 = down st0
    /\ (forall task_id,
          task_to_client st0 !! task_id = task_to_client st0 !! task_id
          \/ task_to_client st0 !! task_id = Some c)
    /\ exists taken new,
         workers st0 = taken ++ workers st0 /\ wire st0 = wire st0 ++ new
         /\ Forall (fun m => m.1 ∈ taken.*1) new).
  { intros st0 b Hb. repeat split; auto. exists [], [].
    now rewrite app_nil_r. }
  revert st. induction inbox as [|[data|] inbox IH]; intros st;
    cbn [client_loop]; unfold get_running, raise, mbind, mret, M_bind, M_ret;
    simpl; destruct (running st) eqn:Hrun; simpl;
    try (apply Hbase; assumption).
  case_decide; [now apply Hbase|].
  destruct (decode3 "TASK" data) as [[task_id task_data]|].
  - unfold print, task_setitem. simpl.
    match goal with
    | |- context [_assign_task_to_worker ?i ?d ?s] =>
        destruct (assign_cases i d s)
          as [[Hw ->]|[(w & wid & rest & Hw & Hd & ->)
                      |(w & wid & rest & Hw & Hd & ->)]]
    end; simpl in *.
    + match goal with
      | |- context [client_loop c inbox ?s] =>
          destruct (IH s) as (Hr & Hdn & Hl & taken & new & Ht & Hwr & Hall)
      end; simpl in *.
      split; [congruence|]. split; [exact Hdn|]. split.
      * intros i. destruct (Hl i) as [H1|H1]; [|now right].
        rewrite H1. destruct (decide (task_id = i)) as [->|Hne].
        -- right. apply lookup_insert_eq.
        -- left. now apply lookup_insert_ne.
      * exists taken, new. split; [now rewrite Hw|]. now split.
    + split; [exact Hrun|]. split; [reflexivity|]. split.
      * intros i. destruct (decide (task_id = i)) as [->|Hne].
        -- right. apply lookup_insert_eq.
        -- left. now apply lookup_insert_ne.
      * exists [(w, wid)], []. rewrite app_nil_r. repeat split; auto.
    + match goal with
      | |- context [client_loop c inbox ?s] =>
          destruct (IH s) as (Hr & Hdn & Hl & taken & new & Ht & Hwr & Hall)
      end; simpl in *.
      split; [congruence|]. split; [exact Hdn|]. split.
      * intros i. destruct (Hl i) as [H1|H1]; [|now right].
        rewrite H1. destruct (decide (task_id = i)) as [->|Hne].
        -- right. apply lookup_insert_eq.
        -- left. now apply lookup_insert_ne.
      * exists ((w, wid) :: taken),
          ((w, encode3 "ASSIGN_TASK" task_id task_data) :: new).
        split; [rewrite Hw; simpl; f_equal; exact Ht|]. split.
        -- rewrite Hwr. now rewrite <- app_assoc.
        -- constructor; [simpl; now left|].
           eapply Forall_impl; [exact Hall|]. intros m Hm. simpl. now right.
  - unfold print. simpl.
    match goal with
    | |- context [client_loop c inbox ?s] =>
        destruct (IH s) as (Hr & Hdn & Hl & taken & new & Ht & Hwr & Hall)
    end; simpl in *.
    split; [congruence|]. split; [exact Hdn|]. split; [exact Hl|].
    exists taken, new. repeat split; auto.
Qed.

Lemma send_result_gone (task_id result_data : string) (st : state)
    (c : socket) :
  task_to_client st !! task_id = Some c -> c ∈ down st ->
  _send_result_to_client task_id result_data st
  = (Ok (),
     State (workers st) (delete task_id (task_to_client st)) (running st)
       (down st) (wire st) (timers st) (waited st) (stdout st ++ [ClientGone])).
Proof.
  intros Hc Hd. destruct st; simpl in *. ops. simpl. rewrite Hc.
  now rewrite decide_True.
Qed.

(** What the loop of an executor's handler leaves alone, on any input. *)
Lemma worker_loop_frame (w : socket) (worker_id : string)
    (inbox : list received) (st : state) :
  running (snd (worker_loop w worker_id inbox st)) = running st
  /\ down (snd (worker_loop w worker_id inbox st)) = down st
  /\ timers (snd (worker_loop w worker_id inbox st)) = timers st
  /\ task_to_client (snd (worker_loop w worker_id inbox st))
     ⊆ task_to_client st
  /\ (exists n,
        n <= length inbox
        /\ workers (snd (worker_loop w worker_id inbox st))
           = workers st ++ replicate n (w, worker_id))
  /\ exists new,
       wire (snd (worker_loop w worker_id inbox st)) = wire st ++ new
       /\ Forall (fun m => exists task_id,
                     task_to_client st !! task_id = Some m.1) new.
Proof.
  assert (Hbase : forall (st0 : state) (b : bool) (k : nat),
    running st0 = b ->
    running st0 = b /\ down st0 = down st0 /\ timers st0 = timers st0
    /\ task_to_client st0 ⊆ task_to_client st0
    /\ (exists n, n <= k /\ workers st0 = workers st0 ++ replicate n (w, worker_id))
    /\ exists new,
         wire st0 = wire st0 ++ new
         /\ Forall (fun m => exists task_id,
                       task_to_client st0 !! task_id = Some m.1) new).
  { intros st0 b k Hb. repeat split; auto.
    - exists 0. split; [lia|]. simpl. now rewrite app_nil_r.
    - exists []. now rewrite app_nil_r. }
  revert st. induction inbox as [|[data|] inbox IH]; intros st;
    cbn [worker_loop]; unfold get_running, raise, mbind, mret, M_bind, M_ret;
    simpl; destruct (running st) eqn:Hrun; simpl;
    try (apply Hbase; assumption).
  case_decide; [now apply Hbase|].
  destruct (decode3 "TASK_RESULT" data) as [[task_id result_data]|].
  - unfold print, workers_put. simpl.
    match goal with
    | |- context [_send_result_to_client ?i ?d ?s] =>
        assert (Hcases :
          (task_to_client st !! i = None
           /\ _send_result_to_client i d s
              = (Ok (), State (workers st) (task_to_client st) (running st)
                          (down st) (wire st) (timers st) (waited st)
                          (stdout s ++ [NoClient i])))
          \/ (exists c new,
                task_to_client st !! i = Some c
                /\ (new = [] \/ new = [(c, encode3 "RESULT" i d)])
                /\ exists out,
                     _send_result_to_client i d s
                     = (Ok (), State (workers st) (delete i (task_to_client st))
                                 (running st) (down st) (wire st ++ new)
                                 (timers st) (waited st) out)))
    end.
    { destruct (task_to_client st !! task_id) as [c|] eqn:Hc.
      - right. destruct (decide (c ∈ down st)) as [Hd|Hd].
        + exists c, []. split; [reflexivity|]. split; [now left|].
          eexists. rewrite (send_result_gone _ _ _ c); simpl; auto.
          now rewrite app_nil_r.
        + exists c, [(c, encode3 "RESULT" task_id result_data)].
          split; [reflexivity|]. split; [now right|].
          eexists. now rewrite (send_result_found _ _ _ c).
      - left. split; [reflexivity|].
        now rewrite send_result_unknown. }
    destruct Hcases as [[Hnone ->]|(c & new0 & Hc & Hnew & out & ->)];
      simpl.
    + match goal with
      | |- context [worker_loop w worker_id inbox ?s] =>
          destruct (IH s)
            as (Hr & Hdn & Htm & Hl & (n & Hn & Hws) & new & Hwr & Hall)
      end; simpl in *.
      split; [congruence|]. split; [exact Hdn|]. split; [exact Htm|].
      split; [exact Hl|]. split.
      * exists (S n). split; [lia|]. rewrite Hws. simpl.
        now rewrite <- app_assoc.
      * exists new. now split.
    + match goal with
      | |- context [worker_loop w worker_id inbox ?s] =>
          destruct (IH s)
            as (Hr & Hdn & Htm & Hl & (n & Hn & Hws) & new & Hwr & Hall)
      end; simpl in *.
      split; [congruence|]. split; [exact Hdn|]. split; [exact Htm|].
      split; [etrans; [exact Hl|apply delete_subseteq]|]. split.
      * exists (S n). split; [lia|]. rewrite Hws. simpl.
        now rewrite <- app_assoc.
      * exists (new0 ++ new). split; [rewrite Hwr; now rewrite <- app_assoc|].
        apply Forall_app. split.
        -- destruct Hnew as [->| ->]; repeat constructor. now exists task_id.
        -- eapply Forall_impl; [exact Hall|]. intros m [i Hi]. exists i.
           eapply lookup_weaken; [exact Hi|apply delete_subseteq].
  - match goal with
    | |- context [worker_loop w worker_id inbox ?s] =>
        destruct (IH s)
          as (Hr & Hdn & Htm & Hl & (n & Hn & Hws) & new & Hwr & Hall)
    end; simpl in *.
    split; [congruence|]. split; [exact Hdn|]. split; [exact Htm|].
    split; [exact Hl|]. split.
    + exists n. split; [lia|exact Hws].
    + exists new. now split.
Qed.

(** What [handler] adds to its body: a line, and the closing of its own
    socket. *)
Lemma handler_after (sock : socket) (gone : line) (body : M loop)
    (st : state) :
  exists dn out,
    (dn = down (snd (body st)) \/ dn = {[sock]} ∪ down (snd (body st)))
    /\ snd (handler sock gone body st)
       = State (workers (snd (body st))) (task_to_client (snd (body st)))
           (running (snd (body st))) dn (wire (snd (body st)))
           (timers (snd (body st))) (waited (snd (body st))) out.
Proof.
  unfold handler, try_except.
  destruct (body st) as [[[]|[]] [ws led run dn wr tm wt out]]; ops; simpl;
    eauto.
Qed.



End RunFacts.

(** ** A task served at once *)

Module SystemFacts.
Import Py PyFacts Wire WireFacts LoadBalancer LoadBalancerFacts System.



Lemma serve_answers (tasks : list (string * string)) (tail : list received) :
  Forall (fun t => contains "|" t.1 = false) tasks ->
  WorkerProcess.serve true
    (map (fun t => Data (encode3 "ASSIGN_TASK" t.1 t.2)) tasks ++ tail)
  = (map (fun t => encode3 "TASK_RESULT" t.1 (Worker.process_task t.2)) tasks
     ++ fst (WorkerProcess.serve true tail),
     snd (WorkerProcess.serve true tail)).
Proof.
  induction 1 as [|[task_id task_data] tasks Hid _ IH].
  - simpl. now destruct (WorkerProcess.serve true tail).
  - cbn [map app WorkerProcess.serve fst snd].
    rewrite (WorkerFacts.on_recv_assign _ _ Hid), IH.
    now rewrite ProcessTaskFacts.process_task_rstrip.
Qed.


End SystemFacts.

(** ** [str] writes what [int] reads *)

Module StrFacts.
Import Py PyFacts Literal IntFacts Worker.

Local Open Scope Z_scope.










End StrFacts.

(** ** Further properties *)





(** X3.  [process_task] gives the same result for its input and for the
    input without the whitespace at its two ends: the stripping of the
    line by the decoders does not change what a task computes. *)
Theorem process_task_ignores_outer_whitespace (task_data : string) :
  Worker.process_task (Py.strip task_data) = Worker.process_task task_data
  /\ Worker.process_task (Py.rstrip task_data) = Worker.process_task task_data.
Proof.
  split; [apply PeerFacts.process_task_strip
         |apply ProcessTaskFacts.process_task_rstrip].
Qed.



(** X5.  [send_task] on a connection that is up returns the last field of a
    RESULT message exactly when the message carries the identifier of the
    task it has just sent; a RESULT for any other identifier gives [None]. *)
Theorem client_takes_only_its_own_result
    (hex8 task_data result_id result_data : string) :
  Py.contains "|" result_id = false ->
  snd (Client.send_task (Some true) hex8 task_data
         (Data (Wire.encode3 "RESULT" result_id result_data)))
  = if decide (result_id = Client.new_task_id hex8)
    then Some (Py.rstrip result_data) else None.
Proof.
  intros Hid. unfold Client.send_task. cbn [snd].
  rewrite WireFacts.split_encode3 by (assumption || reflexivity).
  now rewrite decide_True by reflexivity.
Qed.

Lemma client_takes_only_its_own_result_witness :
  snd (Client.send_task (Some true) "0a1b2c3d" "1,2"
         (Data (Wire.encode3 "RESULT" "task_ffffffff" "3")))
  = None.
Proof.
  apply (client_takes_only_its_own_result "0a1b2c3d" "1,2" "task_ffffffff" "3").
  reflexivity.
Defined.

(** X6.  The registration handshake between the two programs.  For an
    identifier with no delimiter in it and a socket that is up, the message
    [connect] sends makes the broker answer with an acknowledgement that
    [connect] accepts.  For an identifier with the delimiter in it the
    broker ends the handler without an answer and without touching the
    pool, and [start], which then reads the end of the connection, gives
    up: such a worker never gets a task. *)
Theorem registration_round_trip (w : socket) (worker_id : string)
    (inbox : list received) (st : state) :
  w ∉ down st ->
  (Py.contains "|" worker_id = false ->
   wire (snd (_handle_worker w [Data (Wire.encode2 "REGISTER" worker_id)] st))
   = wire st ++ [(w, Wire.encode2 "ACK" (Py.rstrip worker_id))]
   /\ WorkerProcess.connect true worker_id
        (Data (Wire.encode2 "ACK" (Py.rstrip worker_id)))
      = ([Wire.encode2 "REGISTER" worker_id], true))
  /\ (Py.contains "|" worker_id = true ->
      fst (_handle_worker w
             (Data (Wire.encode2 "REGISTER" worker_id) :: inbox) st)
      = Ok Closed
      /\ workers (snd (_handle_worker w
                         (Data (Wire.encode2 "REGISTER" worker_id) :: inbox)
                         st))
         = workers st
      /\ wire (snd (_handle_worker w
                      (Data (Wire.encode2 "REGISTER" worker_id) :: inbox) st))
         = wire st
      /\ WorkerProcess.start true worker_id [Data ""]
         = ([Wire.encode2 "REGISTER" worker_id], WorkerProcess.NotConnected)).
Proof.
  intros Hup. split.
  - intros Hid. rewrite (LoadBalancerFacts.register_ok _ _ _ Hup Hid).
    split; [reflexivity|]. unfold WorkerProcess.connect.
    rewrite PeerFacts.split_encode2;
      [reflexivity | reflexivity | reflexivity |].
    now apply LoadBalancerFacts.contains_rstrip.
  - intros Hid.
    rewrite (LoadBalancerFacts.register_rejected w _ inbox st
               (fun w' => PeerFacts.register_with_delimiter worker_id w' Hid)).
    repeat split.
Qed.

Lemma registration_round_trip_witness :
  WorkerProcess.connect true "worker_0a1b2c3d"
    (Data (Wire.encode2 "ACK" (Py.rstrip "worker_0a1b2c3d")))
  = ([Wire.encode2 "REGISTER" "worker_0a1b2c3d"], true)
  /\ fst (_handle_worker 7 [Data (Wire.encode2 "REGISTER" "a|b")] init)
     = Ok Closed.
Proof.
  split.
  - apply (registration_round_trip 7 "worker_0a1b2c3d" [] init);
      [set_solver | reflexivity].
  - apply (registration_round_trip 7 "a|b" [] init);
      [set_solver | reflexivity].
Defined.

(** X7.  [start] sends its registration; once that is acknowledged, it
    answers the assignments it reads one by one and in their order, each
    with the result of [process_task] on the task data of that assignment,
    and then goes on with what follows. *)
Theorem worker_answers_in_order (worker_id ack_id : string)
    (tasks : list (string * string)) (tail : list received) :
  Py.contains "|" ack_id = false ->
  Forall (fun t => Py.contains "|" t.1 = false) tasks ->
  WorkerProcess.start true worker_id
    (Data (Wire.encode2 "ACK" ack_id)
     :: map (fun t => Data (Wire.encode3 "ASSIGN_TASK" t.1 t.2)) tasks ++ tail)
  = (Wire.encode2 "REGISTER" worker_id
     :: map (fun t => Wire.encode3 "TASK_RESULT" t.1 (Worker.process_task t.2))
          tasks
        ++ fst (WorkerProcess.serve true tail),
     snd (WorkerProcess.serve true tail)).
Proof.
  intros Hack Hids. unfold WorkerProcess.start, WorkerProcess.connect.
  rewrite PeerFacts.split_encode2 by (assumption || reflexivity).
  rewrite bool_decide_eq_true_2 by reflexivity.
  now rewrite (SystemFacts.serve_answers _ _ Hids).
Qed.

Lemma worker_answers_in_order_witness :
  WorkerProcess.start true "w1"
    [Data (Wire.encode2 "ACK" "w1");
     Data (Wire.encode3 "ASSIGN_TASK" "t1" "1,2");
     Data (Wire.encode3 "ASSIGN_TASK" "t2" "x"); Data ""]
  = ([Wire.encode2 "REGISTER" "w1";
      Wire.encode3 "TASK_RESULT" "t1" (Worker.process_task "1,2");
      Wire.encode3 "TASK_RESULT" "t2" (Worker.process_task "x")],
     WorkerProcess.Disconnected).
Proof.
  apply (worker_answers_in_order "w1" "w1" [("t1", "1,2"); ("t2", "x")]
           [Data ""]); [reflexivity | repeat constructor].
Defined.

(** X8.  A producer that disconnects leaves its entries in the ledger.
    When the result of such a task arrives, the entry is taken out, the
    [send] to the closed socket fails and the failure is caught: nothing is
    sent, the executor goes back to the pool and its handler reads on. *)
Theorem result_for_gone_producer (c w : socket)
    (worker_id task_id result_data : string) (st : state) :
  running st = true ->
  Py.contains "|" task_id = false ->
  task_to_client st !! task_id = Some c ->
  let left := snd (_handle_client c [Data ""] st) in
  fst (_handle_client c [Data ""] st) = Ok Closed
  /\ task_to_client left = task_to_client st
  /\ worker_resumed w worker_id
       [Data (Wire.encode3 "TASK_RESULT" task_id result_data)] left
     = (Ok Open,
        State (workers st ++ [(w, worker_id)])
          (delete task_id (task_to_client st)) true ({[c]} ∪ down st)
          (wire st) (timers st) (waited st)
          (stdout st ++ [ResultReceived task_id; ClientGone])).
Proof.
  intros Hrun Hid Hc left. unfold left. rewrite RunFacts.client_eof.
  split; [reflexivity|]. split; [reflexivity|]. cbn [snd].
  unfold worker_resumed. apply SessionFacts.handler_blocked.
  rewrite (SessionFacts.worker_loop_client_gone w c worker_id task_id
             result_data); [reflexivity | exact Hrun | exact Hid | exact Hc |].
  simpl. set_solver.
Qed.

Lemma result_for_gone_producer_witness :
  fst (worker_resumed 7 "w1" [Data (Wire.encode3 "TASK_RESULT" "t1" "3")]
         (snd (_handle_client 3 [Data ""] ledger_with_t1)))
  = Ok Open.
Proof.
  pose proof (result_for_gone_producer 3 7 "w1" "t1" "3" ledger_with_t1
                eq_refl eq_refl eq_refl) as (_ & _ & H).
  now rewrite H.
Defined.

(** X9.  The handler of an executor puts the executor back into the pool
    after every result message it reads, whether or not the executor had
    been taken out of the pool for a task: after n result messages the pool
    holds n more entries for that executor, behind what it held. *)
Theorem every_result_requeues_executor (w : socket) (worker_id : string)
    (results : list (string * string)) (st : state) :
  running st = true ->
  Forall (fun r => Py.contains "|" r.1 = false) results ->
  fst (worker_loop w worker_id
         (map (fun r => Data (Wire.encode3 "TASK_RESULT" r.1 r.2)) results) st)
  = Ok Blocked
  /\ workers
       (snd (worker_loop w worker_id
               (map (fun r => Data (Wire.encode3 "TASK_RESULT" r.1 r.2))
                  results) st))
     = workers st ++ replicate (length results) (w, worker_id).
Proof. apply RunFacts.worker_loop_results. Qed.

Lemma every_result_requeues_executor_witness :
  workers
    (snd (worker_loop 7 "w1"
            (map (fun r => Data (Wire.encode3 "TASK_RESULT" r.1 r.2))
               [("t8", "1"); ("t9", "2")])
            (State [(7, "w1")] ∅ true ∅ [] [] 0 [])))
  = [(7, "w1"); (7, "w1"); (7, "w1")].
Proof.
  apply (every_result_requeues_executor 7 "w1" [("t8", "1"); ("t9", "2")]
           (State [(7, "w1")] ∅ true ∅ [] [] 0 []));
    [reflexivity | repeat constructor].
Defined.

(** X10.  More tasks than idle executors.  The first tasks, as many as
    there are executors, are sent to the executors in the order of the
    pool; every task after them waits its five seconds in the caller and is
    left with one timer of one second, in the order of arrival.  No task is
    dropped and none is sent twice. *)
Theorem overload_defers_tasks (executors : list (socket * string))
    (first later : list (string * string)) (st : state) :
  workers st = executors ->
  Forall (fun e => e.1 ∉ down st) executors ->
  length first = length executors ->
  dispatch_all (first ++ later) st
  = State [] (task_to_client st) (running st) (down st)
      (wire st
       ++ zip_with (fun e t => (e.1, Wire.encode3 "ASSIGN_TASK" t.1 t.2))
            executors first)
      (timers st ++ map (fun t => Timer 1 t.1 t.2) later)
      (waited st + 5 * length later)
      ((stdout st ++ zip_with (fun e t => TaskAssigned t.1 e.2) executors first)
       ++ map (fun t => NoWorkers t.1) later).
Proof.
  intros Hw Hup Hlen. rewrite RunFacts.dispatch_all_app.
  rewrite (RunFacts.dispatch_all_assigned first executors st Hw Hup Hlen).
  now rewrite RunFacts.dispatch_all_deferred.
Qed.

Lemma overload_defers_tasks_witness :
  timers (dispatch_all [("t1", "1"); ("t2", "2"); ("t3", "3")]
            (State [(7, "w1")] ∅ true ∅ [] [] 0 []))
  = [Timer 1 "t2" "2"; Timer 1 "t3" "3"].
Proof.
  rewrite (overload_defers_tasks [(7, "w1")] [("t1", "1")]
             [("t2", "2"); ("t3", "3")] (State [(7, "w1")] ∅ true ∅ [] [] 0 []));
    [reflexivity | reflexivity | | reflexivity].
  repeat constructor. simpl. set_solver.
Defined.

(** X11.  While no executor is idle, a timer that fires starts one timer
    for the same task: however many timers fire, the pending tasks are the
    same as before, none lost and none doubled, nothing is sent and the
    ledger is as it was. *)
Theorem pending_tasks_are_kept (n : nat) (st : state) :
  workers st = [] ->
  Forall (fun t => interval t = 1) (timers st) ->
  timers (fire_timers n st) ≡ₚ timers st
  /\ wire (fire_timers n st) = wire st
  /\ workers (fire_timers n st) = []
  /\ task_to_client (fire_timers n st) = task_to_client st.
Proof. apply RunFacts.fire_timers_deferred. Qed.

Lemma pending_tasks_are_kept_witness :
  timers (fire_timers 3
            (State [] ∅ true ∅ [] [Timer 1 "t1" "1"; Timer 1 "t2" "2"] 0 []))
  ≡ₚ [Timer 1 "t1" "1"; Timer 1 "t2" "2"].
Proof.
  apply (pending_tasks_are_kept 3
           (State [] ∅ true ∅ [] [Timer 1 "t1" "1"; Timer 1 "t2" "2"] 0 []));
    [reflexivity | repeat constructor].
Defined.

(** X12.  Lines that do not decode.  A producer's handler prints one line
    for each of them and changes nothing else: the connection stays open,
    and the pool, the ledger and the wire are as before.  An executor's
    handler drops them without a line; in particular the executor is not
    put back into the pool. *)
Theorem undecodable_lines_are_skipped (c : socket) (worker_id : string)
    (lines : list string) (st : state) :
  running st = true ->
  (Forall (fun d => d <> "" /\ Wire.decode3 "TASK" d = None) lines ->
   _handle_client c (map Data lines) st
   = (Ok Open,
      State (workers st) (task_to_client st) (running st) (down st) (wire st)
        (timers st) (waited st) (stdout st ++ map InvalidMessage lines)))
  /\ (Forall (fun d => d <> "" /\ Wire.decode3 "TASK_RESULT" d = None) lines ->
      worker_resumed c worker_id (map Data lines) st = (Ok Open, st)).
Proof.
  intros Hrun. split; intros H.
  - apply SessionFacts.handler_blocked.
    now apply RunFacts.client_loop_invalid.
  - apply SessionFacts.handler_blocked.
    now apply RunFacts.worker_loop_invalid.
Qed.

Lemma undecodable_lines_are_skipped_witness :
  _handle_client 3 (map Data ["hello"; "TASK|t1"; "RESULT|t1|3"]) init
  = (Ok Open,
     State [] ∅ true ∅ [] [] 0
       [InvalidMessage "hello"; InvalidMessage "TASK|t1";
        InvalidMessage "RESULT|t1|3"]).
Proof.
  apply (undecodable_lines_are_skipped 3 "w1"
           ["hello"; "TASK|t1"; "RESULT|t1|3"] init);
    [reflexivity | repeat constructor; discriminate].
Defined.

(** X13.  What a producer's handler never does, whatever it reads.  It
    does not change the flag [running]; it closes no socket but its own; an
    entry of the ledger is as before or names this producer; it takes
    executors from the head of the pool and puts none in; and every message
    it sends goes to an executor it has taken. *)
Theorem client_handler_frame (c : socket) (inbox : list received)
    (st : state) :
  running (snd (_handle_client c inbox st)) = running st
  /\ down (snd (_handle_client c inbox st)) ⊆ {[c]} ∪ down st
  /\ (forall task_id,
        task_to_client (snd (_handle_client c inbox st)) !! task_id
        = task_to_client st !! task_id
        \/ task_to_client (snd (_handle_client c inbox st)) !! task_id
           = Some c)
  /\ exists taken new,
       workers st = taken ++ workers (snd (_handle_client c inbox st))
       /\ wire (snd (_handle_client c inbox st)) = wire st ++ new
       /\ Forall (fun m => m.1 ∈ taken.*1) new.
Proof.
  unfold _handle_client.
  destruct (RunFacts.handler_after c ClientDisconnected
              (client_loop c inbox) st) as (dn & out & Hdn & ->).
  destruct (RunFacts.client_loop_frame c inbox st)
    as (Hr & Hd & Hl & taken & new & Hw & Hwr & Hall).
  simpl. split; [exact Hr|]. split.
  - rewrite Hd in Hdn.
    destruct Hdn as [-> | ->]; [apply union_subseteq_r|reflexivity].
  - split; [exact Hl|]. now exists taken, new.
Qed.

(** X14.  What an executor's handler never does once the executor has
    registered, whatever it reads.  It does not change the flag [running]
    and starts no timer; it closes no socket but its own; it adds nothing
    to the ledger; it only adds entries for its own executor to the pool,
    one for a message read at most; and every message it sends goes to a
    producer that the ledger named. *)
Theorem worker_handler_frame (w : socket) (worker_id : string)
    (inbox : list received) (st : state) :
  running (snd (worker_resumed w worker_id inbox st)) = running st
  /\ timers (snd (worker_resumed w worker_id inbox st)) = timers st
  /\ down (snd (worker_resumed w worker_id inbox st)) ⊆ {[w]} ∪ down st
  /\ task_to_client (snd (worker_resumed w worker_id inbox st))
     ⊆ task_to_client st
  /\ (exists n,
        n <= length inbox
        /\ workers (snd (worker_resumed w worker_id inbox st))
           = workers st ++ replicate n (w, worker_id))
  /\ exists new,
       wire (snd (worker_resumed w worker_id inbox st)) = wire st ++ new
       /\ Forall (fun m => exists task_id,
                     task_to_client st !! task_id = Some m.1) new.
Proof.
  unfold worker_resumed.
  destruct (RunFacts.handler_after w (WorkerDisconnected (Some worker_id))
              (worker_loop w worker_id inbox) st) as (dn & out & Hdn & ->).
  destruct (RunFacts.worker_loop_frame w worker_id inbox st)
    as (Hr & Hd & Htm & Hl & Hn & Hnew).
  simpl. split; [exact Hr|]. split; [exact Htm|]. split.
  - rewrite Hd in Hdn.
    destruct Hdn as [-> | ->]; [apply union_subseteq_r|reflexivity].
  - split; [exact Hl|]. now split.
Qed.



(** X16.  Messages of one kind are not taken for another.  A three-field
    message under another tag, and a two-field message, do not decode under
    a tag; and a three-field message is no registration.  So a line sent to
    the wrong port is skipped or ends the handshake, and is never acted
    on. *)
Theorem kinds_are_not_confused (tag other a b : string) :
  Py.lstrip other = other ->
  Py.contains "|" other = false ->
  Py.contains "|" a = false ->
  (other <> tag -> Wire.decode3 tag (Wire.encode3 other a b) = None)
  /\ Wire.decode3 tag (Wire.encode2 other a) = None
  /\ (forall worker_id,
        Py.split "|" (Py.strip (Wire.encode3 other a b))
        <> ["REGISTER"; worker_id]).
Proof.
  intros Hl Hp Ha. split; [|split].
  - intros Hne. unfold Wire.decode3.
    rewrite WireFacts.split_encode3 by assumption.
    now rewrite decide_False.
  - unfold Wire.decode3. rewrite WireFacts.strip_encode2 by assumption.
    change (other +:+ "|" +:+ Py.rstrip a)
      with (other +:+ String "|" (Py.rstrip a)).
    rewrite PyFacts.split_max_field by assumption.
    now rewrite (RunFacts.split_max_last _ _ _
                   (LoadBalancerFacts.contains_rstrip _ _ Ha)).
  - intros worker_id. rewrite WireFacts.strip_encode3 by assumption.
    change (other +:+ "|" +:+ a +:+ "|" +:+ Py.rstrip b)
      with (other +:+ String "|" (a +:+ String "|" (Py.rstrip b))).
    rewrite !PyFacts.split_field by assumption.
    destruct (RunFacts.split_not_nil "|" (Py.rstrip b)) as (h & t & ->).
    discriminate.
Qed.

Lemma kinds_are_not_confused_witness :
  Wire.decode3 "TASK" (Wire.encode3 "TASK_RESULT" "t1" "3") = None
  /\ Wire.decode3 "TASK" (Wire.encode2 "REGISTER" "w1") = None.
Proof.
  split.
  - apply (kinds_are_not_confused "TASK" "TASK_RESULT" "t1" "3");
      (reflexivity || discriminate).
  - apply (kinds_are_not_confused "TASK" "REGISTER" "w1" "");
      reflexivity.
Defined.






